(** * Web scanner: relevance filter, learning database and scan scheduler

    A shallow embedding of the relevance-learning and scheduling core of
    the web scanner ([content_filter.py], [learning_database.py],
    [scheduler.py], [config_manager.py], and [clean_content] and
    [is_interesting] of [web_scraper.py]), followed by the properties
    established about it.

    Modelling conventions.
    - Python [str] is [string], read as a sequence of code points 0 to 255;
      the character-level helpers ([lower], [isupper], [isspace], the regex
      classes [\w] and [\s], [re.IGNORECASE]) are those of Python on these
      code points, accented Latin letters, NEL and the no-break space
      included.
    - Python [int] is [Z]; [len] is [String.length] or [List.length]
      injected into [Z].
    - The two relevance scores are computed in binary64, the format of
      Python's [float], as specified by [SpecFloat]: every sum, product and
      quotient is rounded to nearest, ties to even.  A quotient of two
      lengths that the code only compares with one of the literals 0.3 and
      0.05 is an exact rational ([Q]); for lengths below 2^50 the rounded
      quotient stands on the same side of the rounded literal as the exact
      one.
    - [datetime] values are seconds on the proleptic Gregorian calendar,
      counted from 1970-01-01T00:00:00 and bounded by the years 1 and 9999;
      their ISO texts are built digit by digit, because the database
      compares them as text.
    - An exception is a value [Raise e] of [result]; [try ... except
      Exception] is [catch]. *)

From Stdlib Require Import ZArith QArith List String Ascii Bool Lia.
From Stdlib Require Import Qabs SpecFloat.
Import ListNotations.

Open Scope Z_scope.

(** ** Exceptions *)

Inductive exn : Type :=
| ZeroDivisionError
| ValueError
| RuntimeError
| AttributeError
| IndexError
| NotFittedError
| OverflowError
| OSError.

Inductive result (A : Type) : Type :=
| Ok (a : A)
| Raise (e : exn).

Arguments Ok {A} a.
Arguments Raise {A} e.

Definition bind {A B : Type} (m : result A) (k : A -> result B) : result B :=
  match m with
  | Ok a => k a
  | Raise e => Raise e
  end.

Definition catch {A : Type} (m : result A) (handler : exn -> A) : A :=
  match m with
  | Ok a => a
  | Raise e => handler e
  end.

Declare Scope py_scope.
Delimit Scope py_scope with py.
Notation "x <- m ;; k" := (bind m (fun x => k))
  (at level 61, m at next level, right associativity) : py_scope.

(** ** Python built-ins on numbers *)

Module Py.

(** [a / b] on two [int]s: true division, [ZeroDivisionError] on [b = 0]. *)
Definition truediv (a b : Z) : result Q :=
  if b =? 0 then Raise ZeroDivisionError else Ok (inject_Z a / inject_Z b)%Q.

Definition Qltb (x y : Q) : bool := negb (Qle_bool y x).
Definition Qgtb (x y : Q) : bool := Qltb y x.

Definition len {A : Type} (l : list A) : Z := Z.of_nat (List.length l).

End Py.

(** ** Binary64 arithmetic: Python's [float] *)

Module Float.

Definition t : Type := spec_float.

Definition prec : Z := 53.
Definition emax : Z := 1024.

(** [x + y], [x * y], [x < y] *)
Definition add (x y : t) : t := SFadd prec emax x y.
Definition mul (x y : t) : t := SFmul prec emax x y.
Definition ltb (x y : t) : bool := SFltb x y.

(** The literals of the source, each the binary64 value nearest to its
    decimal text: mantissa and exponent. *)
Definition zero : t := S754_zero false.
Definition tenth : t := S754_finite false 7205759403792794 (-56).
Definition two_tenths : t := S754_finite false 7205759403792794 (-55).
Definition three_tenths : t := S754_finite false 5404319552844595 (-54).
Definition four_tenths : t := S754_finite false 7205759403792794 (-54).
Definition one : t := S754_finite false 4503599627370496 (-52).

(** An [int] as the operand of a division: its exact value. *)
Definition of_int (z : Z) : t :=
  match z with
  | Z0 => S754_zero false
  | Zpos p => S754_finite false p 0
  | Zneg p => S754_finite true p 0
  end.

(** [a / b] on two [int]s: [ZeroDivisionError] on [b = 0], else the
    quotient of the two integers, rounded once (a quotient of two lengths
    is within the range of binary64). *)
Definition truediv (a b : Z) : result t :=
  if b =? 0 then Raise ZeroDivisionError
  else Ok (SFdiv prec emax (of_int a) (of_int b)).

(** [min(x, y)] keeps [x] unless [y < x]. *)
Definition min (x y : t) : t := if ltb y x then y else x.

End Float.

(** ** Python [str] and [re] on code points 0 to 255 *)

Module Text.

Definition code (c : ascii) : N := N_of_ascii c.

Definition between (lo hi : N) (c : ascii) : bool :=
  ((lo <=? code c) && (code c <=? hi))%N.

Definition is_code (n : N) (c : ascii) : bool := (code c =? n)%N.

(** [c.isupper()] for one character: [A-Z], and the capitals of Latin-1,
    192 to 222 without the multiplication sign 215. *)
Definition isupper (c : ascii) : bool :=
  between 65 90 c || between 192 214 c || between 216 222 c.

(** Whitespace as [str.split()], [str.strip()] and the regex class [\s]
    see it: TAB, LF, VT, FF, CR, FS, GS, RS, US, SPACE, NEL (133) and the
    no-break space (160). *)
Definition isspace (c : ascii) : bool :=
  between 9 13 c || between 28 32 c || is_code 133 c || is_code 160 c.

(** The regex class [\w] of a [str] pattern: the underscore and every
    character that is alphanumeric for [str.isalnum()], which among the
    code points above 127 are the two ordinal indicators (170, 186), the
    micro sign (181), the superscripts and fractions (178, 179, 185, 188 to
    190) and the letters 192 to 255 without the two signs 215 and 247. *)
Definition isword (c : ascii) : bool :=
  between 48 57 c || between 65 90 c || is_code 95 c || between 97 122 c ||
  is_code 170 c || between 178 179 c || is_code 181 c || between 185 186 c ||
  between 188 190 c || between 192 214 c || between 216 246 c ||
  between 248 255 c.

(** [c.lower()]: a capital has its small letter 32 code points up; no
    other character below 256 changes. *)
Definition lower_char (c : ascii) : ascii :=
  if isupper c then ascii_of_N (code c + 32) else c.

(** [s.lower()] *)
Fixpoint lower (s : string) : string :=
  match s with
  | EmptyString => EmptyString
  | String c s' => String (lower_char c) (lower s')
  end.

(** [len(s)] *)
Definition len (s : string) : Z := Z.of_nat (String.length s).

(** [sum(1 for c in s if p(c))] *)
Fixpoint count_chars (p : ascii -> bool) (s : string) : Z :=
  match s with
  | EmptyString => 0
  | String c s' => (if p c then 1 else 0) + count_chars p s'
  end.

(** [f"{a} {b}"] *)
Definition join_space (a b : string) : string := (a ++ " " ++ b)%string.

(** [s.startswith(p)] *)
Fixpoint startswith (p s : string) : bool :=
  match p, s with
  | EmptyString, _ => true
  | String _ _, EmptyString => false
  | String a p', String b s' => Ascii.eqb a b && startswith p' s'
  end.

(** [sub in s]: [sub] occurs in [s] as a contiguous run of characters. *)
Fixpoint contains (sub s : string) : bool :=
  startswith sub s ||
  match s with
  | EmptyString => false
  | String _ s' => contains sub s'
  end.

(** [s.split()]: the maximal runs of non-whitespace characters.  [cur] is
    the run being read, most recent character first. *)
Definition flush (cur : list ascii) (rest : list string) : list string :=
  match cur with
  | [] => rest
  | _ :: _ => string_of_list_ascii (rev cur) :: rest
  end.

Fixpoint split_from (cur : list ascii) (s : string) : list string :=
  match s with
  | EmptyString => flush cur []
  | String c s' =>
      if isspace c then flush cur (split_from [] s')
      else split_from (c :: cur) s'
  end.

Definition split (s : string) : list string := split_from [] s.

(** [len(set(words))] *)
Definition count_unique (words : list string) : Z :=
  Py.len (nodup string_dec words).

(** *** [re.compile(r'\b' + re.escape(lit) + r'\b', re.IGNORECASE)]

    The compiled pattern is the literal it was built from.  [\b] holds
    between two neighbouring positions exactly one of which carries a
    [\w] character; the two ends of the text count as not [\w]. *)
Record pattern : Type := Pattern { literal : string }.

Definition compile_word (lit : string) : pattern := Pattern lit.

Definition first (s : string) : option ascii :=
  match s with
  | EmptyString => None
  | String c _ => Some c
  end.

Definition isword_at (c : option ascii) : bool :=
  match c with
  | Some c => isword c
  | None => false
  end.

Definition boundary (prev next : option ascii) : bool :=
  xorb (isword_at prev) (isword_at next).

(** The literal, then the closing [\b], matched against [s]; [prev] is the
    character just before [s]. *)
Fixpoint match_literal (prev : option ascii) (lit s : string) : bool :=
  match lit with
  | EmptyString => boundary prev (first s)
  | String a lit' =>
      match s with
      | EmptyString => false
      | String b s' =>
          Ascii.eqb (lower_char a) (lower_char b) &&
          match_literal (Some b) lit' s'
      end
  end.

Definition match_at (prev : option ascii) (lit s : string) : bool :=
  boundary prev (first s) && match_literal prev lit s.

Fixpoint search_from (prev : option ascii) (lit s : string) : bool :=
  match_at prev lit s ||
  match s with
  | EmptyString => false
  | String c s' => search_from (Some c) lit s'
  end.

(** [pattern.search(text)] as a truth value. *)
Definition search (p : pattern) (text : string) : bool :=
  search_from None (literal p) text.

(** [s.replace(c, new)] for a one-character [c]. *)
Fixpoint replace_char (c : ascii) (new : string) (s : string) : string :=
  match s with
  | EmptyString => EmptyString
  | String x s' =>
      if Ascii.eqb x c then (new ++ replace_char c new s')%string
      else String x (replace_char c new s')
  end.

End Text.

(** ** Configuration ([config_manager.py]) *)

Module Config.

Record t : Type := Make {
  scan_interval : Z;
  keywords : list string;
  blacklist : list string;
  min_content_length : Z;
  learning_enabled : bool
}.

(** [ConfigManager._load_config]'s [default_config]. *)
Definition default : t :=
  {| scan_interval := 3600;
     keywords := ["important"; "news"; "update"]%string;
     blacklist := ["spam"; "advertisement"]%string;
     min_content_length := 100;
     learning_enabled := true |}.

(** [config.set('scan_interval', v)]: the assignment in memory. *)
Definition set_scan_interval (c : t) (v : Z) : t :=
  {| scan_interval := v;
     keywords := keywords c;
     blacklist := blacklist c;
     min_content_length := min_content_length c;
     learning_enabled := learning_enabled c |}.

End Config.

(** ** The configuration tree ([config_manager.py])

    [ConfigManager] keeps the parsed JSON of the configuration file and
    reads and writes it by dotted keys.  A Python [dict] is the list of its
    entries in insertion order.  A [TypeError] is [None]. *)

Module ConfigManager.

Local Unset Elimination Schemes.

Inductive json : Type :=
| JNull
| JBool (b : bool)
| JInt (z : Z)
| JFloat (q : Q)
| JStr (s : string)
| JList (items : list json)
| JDict (entries : list (string * json)).

Local Set Elimination Schemes.

Definition dict : Type := list (string * json).

(** [d[k]] when [k in d]. *)
Fixpoint lookup (k : string) (d : dict) : option json :=
  match d with
  | [] => None
  | (k', v) :: d' => if String.eqb k' k then Some v else lookup k d'
  end.

(** [d[k] = v]: the entry of [k] gets the value, a new key goes last. *)
Fixpoint store (k : string) (v : json) (d : dict) : dict :=
  match d with
  | [] => [(k, v)]
  | (k', v') :: d' =>
      if String.eqb k' k then (k', v) :: d' else (k', v') :: store k v d'
  end.

(** [{**a, **b}] *)
Definition merge (a b : dict) : dict :=
  fold_left (fun acc entry => store (fst entry) (snd entry) acc) b a.

(** [s.split(sep)] for a one-character separator: never empty. *)
Fixpoint split_on (sep : ascii) (s : string) : list string :=
  match s with
  | EmptyString => [EmptyString]
  | String c s' =>
      if Ascii.eqb c sep then EmptyString :: split_on sep s'
      else
        match split_on sep s' with
        | [] => [String c EmptyString]
        | word :: words => String c word :: words
        end
  end.

(** The loop of [get]: descend while the value is a [dict] that has the
    key, give the default otherwise. *)
Fixpoint get_path (keys : list string) (value default : json) : json :=
  match keys with
  | [] => value
  | k :: keys' =>
      match value with
      | JDict d =>
          match lookup k d with
          | Some v => get_path keys' v default
          | None => default
          end
      | _ => default
      end
  end.

(** The loop of [set] over [keys[:-1]], then the assignment to
    [keys[-1]].  A missing key gets an empty [dict]; a value on the way that
    is not a [dict] makes the membership test, the indexing or the
    assignment raise [TypeError], before anything was created. *)
Fixpoint set_path (keys : list string) (final : string) (value : json)
    (config : dict) : option dict :=
  match keys with
  | [] => Some (store final value config)
  | k :: keys' =>
      match lookup k config with
      | None =>
          match set_path keys' final value [] with
          | Some sub => Some (store k (JDict sub) config)
          | None => None
          end
      | Some (JDict sub) =>
          match set_path keys' final value sub with
          | Some sub' => Some (store k (JDict sub') config)
          | None => None
          end
      | Some _ => None
      end
  end.

(** The manager: the tree in memory and the tree in the file. *)
Record t : Type := Make {
  config : dict;
  config_file : option dict
}.

Definition get (self : t) (key : string) (default : json) : json :=
  get_path (split_on "." key) (JDict (config self)) default.

(** [set]: the file is rewritten after the assignment. *)
Definition set (self : t) (key : string) (value : json) : option t :=
  let keys := split_on "." key in
  match set_path (removelast keys) (last keys EmptyString) value (config self) with
  | Some config' => Some (Make config' (Some config'))
  | None => None
  end.

Definition default_config : dict :=
  [("scan_interval", JInt 3600);
   ("websites",
    JList
      [JDict
         [("url", JStr "https://example.com");
          ("selectors",
           JDict
             [("articles", JStr "article");
              ("title", JStr "h1, h2, .title");
              ("content", JStr ".content, p");
              ("image", JStr "img");
              ("link", JStr "a")])]]);
   ("tor",
    JDict
      [("enabled", JBool true); ("port", JInt 9050);
       ("control_port", JInt 9051); ("password", JStr "")]);
   ("vpn",
    JDict
      [("enabled", JBool false); ("protocol", JStr "openvpn");
       ("config_file", JStr "")]);
   ("content_filter",
    JDict
      [("keywords", JList [JStr "important"; JStr "news"; JStr "update"]);
       ("blacklist", JList [JStr "spam"; JStr "advertisement"]);
       ("min_content_length", JInt 100);
       ("learning_enabled", JBool true)]);
   ("image_processing",
    JDict
      [("width", JInt 800); ("height", JInt 600);
       ("font_size", JInt 24); ("quality", JInt 85)]);
   ("telegram",
    JDict
      [("enabled", JBool true); ("bot_token", JStr ""); ("chat_id", JStr "");
       ("proxy", JDict [("enabled", JBool false); ("url", JStr "")])]);
   ("database", JDict [("type", JStr "sqlite"); ("path", JStr "data/scanner.db")]);
   ("logging", JDict [("level", JStr "INFO"); ("max_files", JInt 7)])]%string.

(** What is found at the path of the configuration file: nothing, a file
    that cannot be read as JSON, or the parsed JSON. *)
Inductive found : Type :=
| NoFile
| Unreadable
| Parsed (loaded : json).

(** [__init__] with [_load_config]: the defaults overlaid with the top
    level of the file; the defaults alone, written to a new file, when
    there is none; the defaults alone when the file cannot be read or does
    not hold a [dict]. *)
Definition init (file : found) : t :=
  match file with
  | NoFile => Make default_config (Some default_config)
  | Unreadable => Make default_config None
  | Parsed (JDict loaded) => Make (merge default_config loaded) (Some loaded)
  | Parsed _ => Make default_config None
  end.

End ConfigManager.

(** ** Article records

    The dictionaries the scraper builds; a missing key reads as the default
    of [article.get], the empty string, and [image_url] may be absent. *)

Record article : Type := Article {
  title : string;
  content : string;
  cleaned_content : string;
  image_url : option string;
  link : string;
  source_url : string;
  scraped_at : string
}.

(** Truth value of [article.get('image_url')]. *)
Definition truthy (o : option string) : bool :=
  match o with
  | Some (String _ _) => true
  | _ => false
  end.

(** ** [content_filter.py] *)

Module ContentFilter.

Record t : Type := Make {
  keywords : list string;
  blacklist : list string;
  min_content_length : Z;
  learning_enabled : bool;
  keyword_patterns : list Text.pattern;
  blacklist_patterns : list Text.pattern
}.

(** [ContentFilter.__init__] *)
Definition init (config : Config.t) : t :=
  {| keywords := Config.keywords config;
     blacklist := Config.blacklist config;
     min_content_length := Config.min_content_length config;
     learning_enabled := Config.learning_enabled config;
     keyword_patterns := map Text.compile_word (Config.keywords config);
     blacklist_patterns := map Text.compile_word (Config.blacklist config) |}.

Definition _contains_keywords (self : t) (text : string) : bool :=
  match keywords self with
  | [] => true
  | _ :: _ => existsb (fun p => Text.search p text) (keyword_patterns self)
  end.

Definition _contains_blacklisted_terms (self : t) (text : string) : bool :=
  existsb (fun p => Text.search p text) (blacklist_patterns self).

Definition is_punct (c : ascii) : bool :=
  Ascii.eqb c "!"%char || Ascii.eqb c "?"%char.

Definition _is_low_quality_content (content : string) : result bool :=
  let words := Text.split (Text.lower content) in
  if Py.len words <? 20 then Ok true else
  (diversity <- Py.truediv (Text.count_unique words) (Py.len words) ;;
   if Py.Qltb diversity (3 # 10) then Ok true else
   let punctuation_count := Text.count_chars is_punct content in
   (density <- Py.truediv punctuation_count (Text.len content) ;;
    if Py.Qgtb density (5 # 100) then Ok true else
    Ok false))%py.

Definition _additional_relevance_checks (a : article) : result bool :=
  let title := title a in
  let content := content a in
  if (Text.len title <? 10) || (Text.len title >? 200) then Ok false else
  (low <- _is_low_quality_content content ;;
   if low then Ok false else
   (caps <- Py.truediv (Text.count_chars Text.isupper title) (Text.len title) ;;
    if Py.Qgtb caps (3 # 10) then Ok false else
    Ok true))%py.

Definition is_relevant_body (self : t) (a : article) : result bool :=
  let title := Text.lower (title a) in
  let content := Text.lower (content a) in
  let combined_text := Text.join_space title content in
  if Text.len combined_text <? min_content_length self then Ok false else
  if _contains_blacklisted_terms self combined_text then Ok false else
  if negb (_contains_keywords self combined_text) then Ok false else
  _additional_relevance_checks a.

(** [is_relevant]: the body under [try], [False] on any exception. *)
Definition is_relevant (self : t) (a : article) : bool :=
  catch (is_relevant_body self a) (fun _ => false).

Definition update_keywords (self : t) (new_keywords : list string) : t :=
  {| keywords := new_keywords;
     blacklist := blacklist self;
     min_content_length := min_content_length self;
     learning_enabled := learning_enabled self;
     keyword_patterns := map Text.compile_word new_keywords;
     blacklist_patterns := blacklist_patterns self |}.

Definition update_blacklist (self : t) (new_blacklist : list string) : t :=
  {| keywords := keywords self;
     blacklist := new_blacklist;
     min_content_length := min_content_length self;
     learning_enabled := learning_enabled self;
     keyword_patterns := keyword_patterns self;
     blacklist_patterns := map Text.compile_word new_blacklist |}.

End ContentFilter.

(** ** Clock readings and their texts

    [datetime.now()] is the machine's local wall clock; SQLite's ['now'] is
    UTC.  Both are counted in seconds from 1970-01-01T00:00:00 of their own
    time line, and one reading serves a whole method call. *)

Module Clock.

Record t : Type := Make {
  local_seconds : Z;
  microsecond : Z;
  utc_seconds : Z
}.

Definition digit (n : Z) : ascii := ascii_of_N (48 + Z.to_N (n mod 10)).

(** [n] in decimal on [width] digits, zero padded, in front of [acc]. *)
Fixpoint digits (width : nat) (n : Z) (acc : string) : string :=
  match width with
  | O => acc
  | S w => digits w (n / 10) (String (digit n) acc)
  end.

(** Year, month and day of the day numbered [z] from 1970-01-01
    (proleptic Gregorian calendar, years counted from March). *)
Definition civil_from_days (z : Z) : Z * Z * Z :=
  let z := z + 719468 in
  let era := z / 146097 in
  let doe := z - era * 146097 in
  let yoe := (doe - doe / 1460 + doe / 36524 - doe / 146096) / 365 in
  let doy := doe - (365 * yoe + yoe / 4 - yoe / 100) in
  let mp := (5 * doy + 2) / 153 in
  let d := doy - (153 * mp + 2) / 5 + 1 in
  let m := if mp <? 10 then mp + 3 else mp - 9 in
  let y := yoe + era * 400 + (if m <=? 2 then 1 else 0) in
  (y, m, d).

(** [YYYY-MM-DD] *)
Definition date_text (seconds : Z) : string :=
  let '(y, m, d) := civil_from_days (seconds / 86400) in
  digits 4 y ("-" ++ digits 2 m ("-" ++ digits 2 d ""))%string.

(** [HH:MM:SS] *)
Definition time_text (seconds : Z) : string :=
  let s := seconds mod 86400 in
  digits 2 (s / 3600)
    (":" ++ digits 2 (s mod 3600 / 60) (":" ++ digits 2 (s mod 60) ""))%string.

(** [datetime.isoformat()]: [T] between date and time, the microseconds
    only when they are not zero. *)
Definition isoformat (seconds micro : Z) : string :=
  (date_text seconds ++ "T" ++ time_text seconds ++
   (if (micro =? 0)%Z then "" else "." ++ digits 6 micro ""))%string.

(** [datetime.now().isoformat()] *)
Definition now_isoformat (now : t) : string :=
  isoformat (local_seconds now) (microsecond now).

(** SQLite's [datetime(...)]: a space between date and time. *)
Definition sqlite_datetime (seconds : Z) : string :=
  (date_text seconds ++ " " ++ time_text seconds)%string.

(** [datetime('now', '-1 day')] and [datetime('now', '-24 hours')] *)
Definition sqlite_now_minus_1_day (now : t) : string :=
  sqlite_datetime (utc_seconds now - 86400).

(** [a > b] on two TEXT values, as SQLite's BINARY collation orders them:
    byte by byte, a proper prefix first. *)
Definition text_gt (a b : string) : bool :=
  match String.compare a b with
  | Gt => true
  | _ => false
  end.

End Clock.

(** ** [content_filter.py]: the methods that read the clock

    [is_high_priority], [_is_recent_content] and [calculate_relevance_score]
    of [ContentFilter].  [datetime.fromisoformat] is library code: it
    raises or gives a naive datetime, or one that carries a UTC offset; both
    are counted in microseconds. *)

Module ContentRanking.

Inductive parsed_datetime : Type :=
| Naive (microseconds : Z)
| Aware (microseconds : Z) (utcoffset : Z).

(** [datetime.now()] in microseconds. *)
Definition now_microseconds (now : Clock.t) : Z :=
  Clock.local_seconds now * 1000000 + Clock.microsecond now.

(** [datetime.now() - scrape_time]: subtracting an aware datetime from a
    naive one raises [TypeError], here [None]. *)
Definition elapsed (now : Clock.t) (scrape_time : parsed_datetime) : option Z :=
  match scrape_time with
  | Naive t => Some (now_microseconds now - t)
  | Aware _ _ => None
  end.

(** [timedelta(hours=24)] *)
Definition one_day : Z := 24 * 3600 * 1000000.

Definition high_priority_keywords : list string :=
  ["urgent"; "breaking"; "alert"; "important";
   "critical"; "emergency"; "update"; "announcement"]%string.

Section WithParser.

Variable fromisoformat : string -> option parsed_datetime.

(** [_is_recent_content]: the bare [except] turns every exception into
    [False]. *)
Definition _is_recent_content (now : Clock.t) (a : article) : bool :=
  match scraped_at a with
  | EmptyString => false
  | String _ _ =>
      match fromisoformat (Text.replace_char "Z" "+00:00" (scraped_at a)) with
      | Some scrape_time =>
          match elapsed now scrape_time with
          | Some age => age <? one_day
          | None => false
          end
      | None => false
      end
  end.

(** [is_high_priority]; nothing in its body raises on strings. *)
Definition is_high_priority (now : Clock.t) (a : article) : bool :=
  let title := Text.lower (title a) in
  let content := Text.lower (content a) in
  let combined_text := Text.join_space title content in
  if existsb (fun keyword => Text.contains keyword combined_text)
       high_priority_keywords
  then true
  else if _is_recent_content now a then true
  else false.



End WithParser.

End ContentRanking.

(** ** [web_scraper.py]: cleaning the content *)

Module WebScraper.

(** [re.sub(r'\s+', ' ', content)]; [in_run] tells that the character
    before was whitespace. *)
Fixpoint collapse_whitespace (in_run : bool) (s : string) : string :=
  match s with
  | EmptyString => EmptyString
  | String c s' =>
      if Text.isspace c then
        if in_run then collapse_whitespace true s'
        else String " " (collapse_whitespace true s')
      else String c (collapse_whitespace false s')
  end.

(** The class [[a-zA-Z0-9#]]. *)
Definition entity_char (c : ascii) : bool :=
  Text.between 97 122 c || Text.between 65 90 c || Text.between 48 57 c ||
  Ascii.eqb c "#".

(** After an [&]: the number of characters of [[a-zA-Z0-9#]+;] at the
    head of [s], if it is there; [seen] tells that the run has begun. *)
Fixpoint entity_tail (seen : bool) (s : string) : option nat :=
  match s with
  | EmptyString => None
  | String c s' =>
      if entity_char c then option_map S (entity_tail true s')
      else if Ascii.eqb c ";" then (if seen then Some 1%nat else None)
      else None
  end.

(** [re.sub(r'&[a-zA-Z0-9#]+;', '', content)]: the matches are taken from
    left to right and do not overlap; [skip] characters of a match remain
    to be dropped. *)
Fixpoint remove_entities (skip : nat) (s : string) : string :=
  match s with
  | EmptyString => EmptyString
  | String c s' =>
      match skip with
      | S n => remove_entities n s'
      | O =>
          if Ascii.eqb c "&" then
            match entity_tail false s' with
            | Some n => remove_entities n s'
            | None => String c (remove_entities 0 s')
            end
          else String c (remove_entities 0 s')
      end
  end.

(** The characters [[^\w\s\.\,\!\?\-\:\;]] does not match. *)
Definition kept (c : ascii) : bool :=
  Text.isword c || Text.isspace c ||
  existsb (Ascii.eqb c) ["."; ","; "!"; "?"; "-"; ":"; ";"]%char.

(** [re.sub(r'[^\w\s\.\,\!\?\-\:\;]', '', content)] *)
Fixpoint remove_special (s : string) : string :=
  match s with
  | EmptyString => EmptyString
  | String c s' =>
      if kept c then String c (remove_special s') else remove_special s'
  end.

(** [s.lstrip()], [s.rstrip()], [s.strip()] *)
Fixpoint lstrip (s : string) : string :=
  match s with
  | EmptyString => EmptyString
  | String c s' => if Text.isspace c then lstrip s' else s
  end.

Fixpoint rstrip (s : string) : string :=
  match s with
  | EmptyString => EmptyString
  | String c s' =>
      match rstrip s' with
      | EmptyString => if Text.isspace c then EmptyString else String c EmptyString
      | rest => String c rest
      end
  end.

Definition strip (s : string) : string := rstrip (lstrip s).

(** [clean_content] *)
Definition clean_content (content : string) : string :=
  let content := collapse_whitespace false content in
  let content := remove_entities 0 content in
  let content := remove_special content in
  strip content.

End WebScraper.

(** ** The scikit-learn estimators used by the learning database

    [TfidfVectorizer], [train_test_split], [MultinomialNB] and
    [accuracy_score] are library code; the database is written against
    this interface, each call of which may raise. *)

Record sklearn : Type := Sklearn {
  vec : Type;
  mat : Type;
  clf : Type;
  tfidf_fit_transform : list string -> result (vec * mat);
  tfidf_transform : vec -> list string -> result mat;
  train_test_split : mat -> list Z -> result ((mat * mat) * (list Z * list Z));
  nb_fit : mat -> list Z -> result clf;
  nb_predict : clf -> mat -> result (list Z);
  nb_predict_proba : clf -> mat -> result (list (list Q));
  accuracy_score : list Z -> list Z -> result Q;
  count_vectorizer_features : string -> result (list string)
}.

(** An estimator object: just constructed, or fitted. *)
Inductive estimator (P : Type) : Type :=
| Unfitted
| Fitted (params : P).

Arguments Unfitted {P}.
Arguments Fitted {P} params.

Inductive level : Type := DEBUG | INFO | WARNING | ERROR.

Record log_record : Type := Log { lvl : level; msg : string }.

(** ** [learning_database.py] *)

Module LearningDatabase.

(** *** Scoring and keyword rules, which read the configuration only *)

(** [sum(1 for keyword in keywords
         if keyword.lower() in f"{title} {content}".lower())] *)
Definition keyword_matches (keywords : list string) (title content : string) : Z :=
  Py.len
    (filter
       (fun keyword =>
          Text.contains (Text.lower keyword)
            (Text.lower (Text.join_space title content)))
       keywords).

Definition _calculate_relevance_score_body
    (config : Config.t) (a : article) : result Float.t :=
  let title := title a in
  let content := cleaned_content a in
  let score := Float.zero in
  let title_length := Text.len title in
  let score :=
    if (20 <=? title_length) && (title_length <=? 100)
    then Float.add score Float.two_tenths else score in
  let content_length := Text.len content in
  let score :=
    if content_length >? 200 then Float.add score Float.two_tenths else score in
  let keywords := Config.keywords config in
  let matches := keyword_matches keywords title content in
  (score <-
     match keywords with
     | [] => Ok score
     | _ :: _ =>
         (fraction <- Float.truediv matches (Py.len keywords) ;;
          Ok (Float.add score (Float.mul fraction Float.four_tenths)))
     end ;;
   let score :=
     if truthy (image_url a) then Float.add score Float.two_tenths else score in
   Ok (Float.min score Float.one))%py.

(** [_calculate_relevance_score]: 0.0 on any exception. *)
Definition _calculate_relevance_score (config : Config.t) (a : article) : Float.t :=
  catch (_calculate_relevance_score_body config a) (fun _ => Float.zero).

(** [_basic_interest_prediction]; nothing in its body raises on strings. *)
Definition _basic_interest_prediction (config : Config.t) (a : article) : bool :=
  let keywords := Config.keywords config in
  let blacklist := Config.blacklist config in
  let title := Text.lower (title a) in
  let content := Text.lower (cleaned_content a) in
  let combined_text := Text.join_space title content in
  if existsb (fun term => Text.contains (Text.lower term) combined_text) blacklist
  then false
  else existsb (fun keyword => Text.contains (Text.lower keyword) combined_text)
         keywords.

(** *** Tables *)

Record article_row : Type := ArticleRow {
  row_id : Z;
  row_title : string;
  row_content : string;
  row_image_url : option string;
  row_link : string;
  row_source_url : string;
  row_scraped_at : string;
  relevance_score : Float.t;
  user_interest : option Z;
  row_keywords : list string;
  processed : bool
}.

(** A row of [user_feedback].  The table declares [article_id] as
    [REFERENCES articles (id)]; SQLite checks foreign keys only on a
    connection that has set [PRAGMA foreign_keys = ON], which no connection
    of this class does, so a row for any identity is accepted.  The
    timestamp is the text [datetime.now().isoformat()] produced. *)
Record feedback_row : Type := FeedbackRow {
  feedback_id : Z;
  article_id : Z;
  feedback_type : string;
  feedback_timestamp : string
}.

Record metric_row : Type := MetricRow {
  metric_name : string;
  metric_value : Q;
  metric_timestamp : string
}.

(** [INTEGER PRIMARY KEY AUTOINCREMENT]: one more than every id in use. *)
Definition next_id (ids : list Z) : Z := 1 + fold_right Z.max 0 ids.

Definition set_user_interest (v : Z) (r : article_row) : article_row :=
  {| row_id := row_id r;
     row_title := row_title r;
     row_content := row_content r;
     row_image_url := row_image_url r;
     row_link := row_link r;
     row_source_url := row_source_url r;
     row_scraped_at := row_scraped_at r;
     relevance_score := relevance_score r;
     user_interest := Some v;
     row_keywords := row_keywords r;
     processed := processed r |}.

(** [UPDATE articles SET user_interest = ? WHERE id = ?] *)
Definition update_user_interest (v id : Z) (rows : list article_row)
    : list article_row :=
  map (fun r => if row_id r =? id then set_user_interest v r else r) rows.

(** [SELECT title, content, user_interest FROM articles
     WHERE user_interest IS NOT NULL] *)
Fixpoint select_labelled (rows : list article_row)
    : list (string * string * Z) :=
  match rows with
  | [] => []
  | r :: rows' =>
      match user_interest r with
      | Some v => (row_title r, row_content r, v) :: select_labelled rows'
      | None => select_labelled rows'
      end
  end.

(** [SELECT COUNT( * ) FROM user_feedback
     WHERE feedback_timestamp > datetime('now', '-1 day')]: the stored
    values are text and so is the result of [datetime], hence the
    comparison is that of two texts. *)
Definition recent_feedback (now : Clock.t) (rows : list feedback_row) : Z :=
  Py.len
    (filter
       (fun r =>
          Clock.text_gt (feedback_timestamp r)
            (Clock.sqlite_now_minus_1_day now))
       rows).

Section WithEstimators.

Variable sk : sklearn.

(** *** The database object: its tables, the model file, the estimator
    attributes and what it has logged *)
Record t : Type := Make {
  articles : list article_row;
  user_feedback : list feedback_row;
  performance_metrics : list metric_row;
  model_file : option string;
  vectorizer : option (estimator (vec sk));
  classifier : option (estimator (clf sk));
  model_trained : bool;
  logged : list log_record
}.

Definition with_articles (v : list article_row) (s : t) : t :=
  Make v (user_feedback s) (performance_metrics s) (model_file s)
    (vectorizer s) (classifier s) (model_trained s) (logged s).
Definition with_user_feedback (v : list feedback_row) (s : t) : t :=
  Make (articles s) v (performance_metrics s) (model_file s)
    (vectorizer s) (classifier s) (model_trained s) (logged s).
Definition with_performance_metrics (v : list metric_row) (s : t) : t :=
  Make (articles s) (user_feedback s) v (model_file s)
    (vectorizer s) (classifier s) (model_trained s) (logged s).
Definition with_model_file (v : option string) (s : t) : t :=
  Make (articles s) (user_feedback s) (performance_metrics s) v
    (vectorizer s) (classifier s) (model_trained s) (logged s).
Definition with_vectorizer (v : option (estimator (vec sk))) (s : t) : t :=
  Make (articles s) (user_feedback s) (performance_metrics s) (model_file s)
    v (classifier s) (model_trained s) (logged s).
Definition with_classifier (v : option (estimator (clf sk))) (s : t) : t :=
  Make (articles s) (user_feedback s) (performance_metrics s) (model_file s)
    (vectorizer s) v (model_trained s) (logged s).
Definition with_model_trained (v : bool) (s : t) : t :=
  Make (articles s) (user_feedback s) (performance_metrics s) (model_file s)
    (vectorizer s) (classifier s) v (logged s).
Definition with_logged (v : list log_record) (s : t) : t :=
  Make (articles s) (user_feedback s) (performance_metrics s) (model_file s)
    (vectorizer s) (classifier s) (model_trained s) v.

(** *** Methods: state passing with exceptions; what a method did to
    the object before it raised stays done *)
Definition M (A : Type) : Type := t -> result A * t.

Definition ret {A : Type} (a : A) : M A := fun s => (Ok a, s).

Definition mbind {A B : Type} (m : M A) (k : A -> M B) : M B :=
  fun s =>
    match m s with
    | (Ok a, s') => k a s'
    | (Raise e, s') => (Raise e, s')
    end.

Definition lift {A : Type} (r : result A) : M A := fun s => (r, s).

Definition get : M t := fun s => (Ok s, s).

Definition modify (f : t -> t) : M unit := fun s => (Ok tt, f s).

Definition try_except {A : Type} (body : M A) (handler : exn -> M A) : M A :=
  fun s =>
    match body s with
    | (Ok a, s') => (Ok a, s')
    | (Raise e, s') => handler e s'
    end.

Definition log (l : level) (m : string) : M unit :=
  modify (fun s => with_logged (logged s ++ [Log l m]) s).

Declare Scope db_scope.
Delimit Scope db_scope with db.
Notation "x <- m ;; k" := (mbind m (fun x => k))
  (at level 61, m at next level, right associativity) : db_scope.
Notation "m ;;; k" := (mbind m (fun _ => k))
  (at level 61, right associativity) : db_scope.

(** [x[0]] *)
Definition index0 {A : Type} (l : list A) : result A :=
  match l with
  | [] => Raise IndexError
  | x :: _ => Ok x
  end.

(** [max(l)]: [ValueError] on an empty sequence. *)
Definition pymax (l : list Q) : result Q :=
  match l with
  | [] => Raise ValueError
  | x :: l' => Ok (fold_left (fun m y => if Py.Qltb m y then y else m) l' x)
  end.

(** The fitted parameters behind an estimator attribute: [None] has no
    methods, a fresh estimator is not fitted. *)
Definition fitted {P : Type} (o : option (estimator P)) : result P :=
  match o with
  | None => Raise AttributeError
  | Some Unfitted => Raise NotFittedError
  | Some (Fitted p) => Ok p
  end.

Definition _save_model (now : Clock.t) : M unit :=
  (modify (with_model_file (Some (Clock.now_isoformat now))) ;;;
   log INFO "Model saved successfully")%db.

Definition _record_performance_metric
    (now : Clock.t) (name : string) (value : Q) : M unit :=
  modify (fun s =>
    with_performance_metrics
      (performance_metrics s ++ [MetricRow name value (Clock.now_isoformat now)])
      s).

Definition _train_model (now : Clock.t) : M unit :=
  try_except
    (self <- get ;;
     let data := select_labelled (articles self) in
     if Py.len data <? 50 then log WARNING "Not enough data for training"
     else
       let texts :=
         map (fun row => Text.join_space (fst (fst row)) (snd (fst row))) data in
       let labels := map snd data in
       modify (with_vectorizer (Some Unfitted)) ;;;
       fit <- lift (tfidf_fit_transform sk texts) ;;
       modify (with_vectorizer (Some (Fitted (fst fit)))) ;;;
       let X := snd fit in
       let y := labels in
       parts <- lift (train_test_split sk X y) ;;
       let '((X_train, X_test), (y_train, y_test)) := parts in
       modify (with_classifier (Some Unfitted)) ;;;
       model <- lift (nb_fit sk X_train y_train) ;;
       modify (with_classifier (Some (Fitted model))) ;;;
       y_pred <- lift (nb_predict sk model X_test) ;;
       accuracy <- lift (accuracy_score sk y_test y_pred) ;;
       log INFO "Model trained with accuracy" ;;;
       modify (with_model_trained true) ;;;
       _save_model now ;;;
       _record_performance_metric now "model_accuracy" accuracy)%db
    (fun _ => log ERROR "Error training model").

Definition _should_retrain (now : Clock.t) : M bool :=
  (self <- get ;;
   ret (recent_feedback now (user_feedback self) >=? 10))%db.

Definition _has_enough_training_data : M bool :=
  (self <- get ;;
   ret (Py.len (select_labelled (articles self)) >=? 50))%db.

Definition record_user_feedback
    (now : Clock.t) (article_id : Z) (feedback_type : string) : M unit :=
  try_except
    (modify (fun s =>
       with_user_feedback
         (user_feedback s ++
            [FeedbackRow
               (next_id (map feedback_id (user_feedback s)))
               article_id feedback_type (Clock.now_isoformat now)])
         s) ;;;
     let user_interest :=
       if (feedback_type =? "interested")%string then Some 1
       else if (feedback_type =? "not_interested")%string then Some 0
       else None in
     match user_interest with
     | Some v =>
         modify (fun s =>
           with_articles (update_user_interest v article_id (articles s)) s)
     | None => ret tt
     end ;;;
     retrain <- _should_retrain now ;;
     (if retrain : bool then _train_model now else ret tt) ;;;
     log INFO "Recorded feedback")%db
    (fun _ => log ERROR "Error recording user feedback").

Definition predict_interest (config : Config.t) (a : article) : M bool :=
  try_except
    (self <- get ;;
     if negb (model_trained self)
     then ret (_basic_interest_prediction config a)
     else
       let text := Text.join_space (title a) (cleaned_content a) in
       v <- lift (fitted (vectorizer self)) ;;
       text_vector <- lift (tfidf_transform sk v [text]) ;;
       c <- lift (fitted (classifier self)) ;;
       predictions <- lift (nb_predict sk c text_vector) ;;
       prediction <- lift (index0 predictions) ;;
       probabilities <- lift (nb_predict_proba sk c text_vector) ;;
       probability <- lift (index0 probabilities) ;;
       confidence <- lift (pymax probability) ;;
       log DEBUG "Interest prediction" ;;;
       ret (prediction =? 1))%db
    (fun _ =>
       (log ERROR "Error predicting interest" ;;;
        ret (_basic_interest_prediction config a))%db).

(** [_extract_keywords]: the ten most frequent terms, or, when the
    vectorizer raises, the first ten longer words. *)
Definition common_words : list string :=
  ["the"; "a"; "an"; "and"; "or"; "but"; "in"; "on"; "at"; "to"; "for"]%string.

Definition _extract_keywords (a : article) : list string :=
  let text := Text.join_space (title a) (cleaned_content a) in
  match count_vectorizer_features sk text with
  | Ok features => features
  | Raise _ =>
      let words := Text.split (Text.lower text) in
      firstn 10
        (filter
           (fun word =>
              negb (existsb (String.eqb word) common_words) &&
              (Text.len word >? 3))
           words)
  end.

Definition record_article (config : Config.t) (a : article) : M unit :=
  try_except
    (let relevance_score := _calculate_relevance_score config a in
     let keywords := _extract_keywords a in
     modify (fun s =>
       with_articles
         (articles s ++
            [ArticleRow (next_id (map row_id (articles s)))
               (title a) (cleaned_content a) (image_url a) (link a)
               (source_url a) (scraped_at a) relevance_score None
               keywords false])
         s) ;;;
     log DEBUG "Recorded article")%db
    (fun _ => log ERROR "Error recording article").

(** *** [get_statistics] *)
Record statistics : Type := Statistics {
  total_articles : Z;
  articles_with_feedback : Z;
  user_interest_rate : Q;
  articles_last_24h : Z
}.

Definition sum_Z (l : list Z) : Z := fold_right Z.add 0 l.

Definition get_statistics (now : Clock.t) (self : t) : statistics :=
  let labels := map snd (select_labelled (articles self)) in
  {| total_articles := Py.len (articles self);
     articles_with_feedback := Py.len labels;
     user_interest_rate :=
       match labels with
       | [] => 0%Q
       | _ :: _ => (inject_Z (sum_Z labels) / inject_Z (Py.len labels))%Q
       end;
     articles_last_24h :=
       Py.len
         (filter
            (fun r =>
               Clock.text_gt (row_scraped_at r)
                 (Clock.sqlite_now_minus_1_day now))
            (articles self)) |}.

(** [_load_model]; [parsed] is what opening the model file and parsing its
    JSON gave, and is looked at only when the file exists.  The content of
    the file is not used: only the flag is set. *)
Definition _load_model (parsed : result unit) : M bool :=
  try_except
    (self <- get ;;
     match model_file self with
     | Some _ =>
         (lift parsed ;;;
          modify (with_model_trained true) ;;;
          ret true)
     | None => ret false
     end)%db
    (fun _ => (log ERROR "Error loading model" ;;; ret false)%db).

Definition _load_or_train_model (parsed : result unit) (now : Clock.t) : M unit :=
  try_except
    (loaded <- _load_model parsed ;;
     if loaded : bool then log INFO "Loaded existing learning model"
     else
       (enough <- _has_enough_training_data ;;
        if enough : bool then _train_model now
        else log INFO "Not enough data for training, using basic filtering"))%db
    (fun _ => log ERROR "Error with model loading/training").

(** [LearningDatabase.__init__] on the tables and the model file found on
    disk: the estimator attributes start empty, [_init_database] creates
    the missing tables and logs, then the model is loaded or trained. *)
Definition init
    (disk_articles : list article_row) (disk_feedback : list feedback_row)
    (disk_metrics : list metric_row) (disk_model_file : option string)
    (parsed : result unit) (now : Clock.t) : t :=
  snd
    (_load_or_train_model parsed now
       (Make disk_articles disk_feedback disk_metrics disk_model_file
          None None false [Log INFO "Database initialized successfully"])).

End WithEstimators.

Arguments articles {sk} _.
Arguments user_feedback {sk} _.
Arguments performance_metrics {sk} _.
Arguments model_file {sk} _.
Arguments vectorizer {sk} _.
Arguments classifier {sk} _.
Arguments model_trained {sk} _.
Arguments logged {sk} _.

End LearningDatabase.

(** ** [web_scraper.py]: the interest test *)

Module Interest.

Import LearningDatabase.

Section WithLibraries.

Variable sk : sklearn.
Variable fromisoformat : string -> option ContentRanking.parsed_datetime.

(** [WebScraper.is_interesting]: the prediction of the learning database
    and, should it raise, the priority test of the filter. *)
Definition is_interesting
    (config : Config.t) (now : Clock.t) (a : article) : M sk bool :=
  try_except sk
    (predict_interest sk config a)
    (fun _ =>
       mbind sk (log sk ERROR "Error predicting interest")
         (fun _ => ret sk (ContentRanking.is_high_priority fromisoformat now a))).

End WithLibraries.

End Interest.

(** ** [datetime] and [timedelta] within their bounds *)

Module Datetime.

(** [datetime.min] and [datetime.max], whole seconds from
    1970-01-01T00:00:00: 0001-01-01T00:00:00 and 9999-12-31T23:59:59. *)
Definition min_seconds : Z := -62135596800.
Definition max_seconds : Z := 253402300799.

(** [timedelta(seconds=n)]: [OverflowError] when the number of days
    exceeds 999999999 in magnitude. *)
Definition timedelta (seconds : Z) : result Z :=
  if (-999999999 <=? seconds / 86400) && (seconds / 86400 <=? 999999999)
  then Ok seconds else Raise OverflowError.

(** [t + delta]: [OverflowError] when the date is out of range. *)
Definition add (t delta : Z) : result Z :=
  if (min_seconds <=? t + delta) && (t + delta <=? max_seconds)
  then Ok (t + delta) else Raise OverflowError.

End Datetime.

(** ** [scheduler.py]

    Times are seconds on the clock [datetime.now()] reads, which stands at
    least a minute before the end of the year 9999.  One pass of the loop
    of [_run_scheduler], from reading the clock to going to sleep, is one
    step; the other methods are called between such passes. *)

Module Scheduler.

(** [config_file] is the configuration the file is known to hold: the one
    the last call of [config.set] through this scheduler wrote, if that
    write completed. *)
Record t : Type := Make {
  config : Config.t;
  config_file : option Config.t;
  scan_interval : Z;
  enabled : bool;
  running : bool;
  last_scan : option Z;
  next_scan : option Z;
  total_scans : Z;
  successful_scans : Z;
  failed_scans : Z
}.

(** [ScannerScheduler.__init__] *)
Definition init (config : Config.t) : t :=
  {| config := config;
     config_file := None;
     scan_interval := Config.scan_interval config;
     enabled := true;
     running := false;
     last_scan := None;
     next_scan := None;
     total_scans := 0;
     successful_scans := 0;
     failed_scans := 0 |}.

Definition with_flags (enabled running : bool) (s : t) : t :=
  Make (config s) (config_file s) (scan_interval s) enabled running
    (last_scan s) (next_scan s) (total_scans s) (successful_scans s)
    (failed_scans s).

Definition with_next_scan (v : option Z) (s : t) : t :=
  Make (config s) (config_file s) (scan_interval s) (enabled s) (running s)
    (last_scan s) v (total_scans s) (successful_scans s) (failed_scans s).

(** [self.scan_interval = interval] and the assignment [config.set] makes
    in memory. *)
Definition with_interval (v : Z) (s : t) : t :=
  Make (Config.set_scan_interval (config s) v) (config_file s) v (enabled s)
    (running s) (last_scan s) (next_scan s) (total_scans s)
    (successful_scans s) (failed_scans s).

(** [_save_config] has written the configuration held in memory. *)
Definition with_config_saved (s : t) : t :=
  Make (config s) (Some (config s)) (scan_interval s) (enabled s)
    (running s) (last_scan s) (next_scan s) (total_scans s)
    (successful_scans s) (failed_scans s).

(** [_save_config] has raised: the file was opened for writing or not, and
    written in part or not. *)
Definition with_config_unsaved (s : t) : t :=
  Make (config s) None (scan_interval s) (enabled s)
    (running s) (last_scan s) (next_scan s) (total_scans s)
    (successful_scans s) (failed_scans s).

(** A method call: it returned, or it raised; either way it leaves the
    object in a state, with what it assigned before raising. *)
Inductive ending : Type :=
| Returned (s : t)
| Raised (e : exn) (s : t).

Definition after (o : ending) : t :=
  match o with
  | Returned s => s
  | Raised _ s => s
  end.

(** [_schedule_next_scan]; [now] is the clock it may read.  When the sum
    overflows nothing is assigned. *)
Definition _schedule_next_scan (now : Z) (s : t) : result t :=
  match last_scan s with
  | Some last =>
      (delta <- Datetime.timedelta (scan_interval s) ;;
       next <- Datetime.add last delta ;;
       Ok (with_next_scan (Some next) s))%py
  | None => Ok (with_next_scan (Some (now + 60)) s)
  end.

(** A method that ends with the call of [_schedule_next_scan]. *)
Definition schedule_and_return (now : Z) (s : t) : ending :=
  match _schedule_next_scan now s with
  | Ok s' => Returned s'
  | Raise e => Raised e s
  end.

Definition start (now : Z) (s : t) : ending :=
  if running s then Returned s
  else schedule_and_return now (with_flags true true s).

Definition stop (s : t) : t := with_flags false false s.

(** What the scan pipeline did: it returned its articles, or something
    in it raised; and when. *)
Inductive scan_outcome : Type :=
| Completed (articles_found : Z)
| Failed (e : exn).

Record scan_run : Type := ScanRun {
  outcome : scan_outcome;
  finished_at : Z
}.

(** [_perform_scan]: the statistics after the [try] or the [except]
    branch; the notifications it sends catch their own exceptions. *)
Definition _perform_scan (run : scan_run) (s : t) : t :=
  match outcome run with
  | Completed _ =>
      Make (config s) (config_file s) (scan_interval s) (enabled s) (running s)
        (Some (finished_at run)) (next_scan s)
        (total_scans s + 1) (successful_scans s + 1) (failed_scans s)
  | Failed _ =>
      Make (config s) (config_file s) (scan_interval s) (enabled s) (running s)
        (last_scan s) (next_scan s)
        (total_scans s + 1) (successful_scans s) (failed_scans s + 1)
  end.

(** Whether this pass of the loop starts a scan:
    [self.next_scan and current_time >= self.next_scan]. *)
Definition scan_due (current_time : Z) (s : t) : bool :=
  match next_scan s with
  | Some next => current_time >=? next
  | None => false
  end.

(** One pass of [while self.running: ...]; the [except] of the loop logs
    what [_schedule_next_scan] raises and the loop goes on. *)
Definition _run_scheduler_pass (current_time : Z) (run : scan_run) (s : t) : t :=
  if running s then
    if scan_due current_time s
    then
      let s := _perform_scan run s in
      catch (_schedule_next_scan (finished_at run) s) (fun _ => s)
    else s
  else s.

Record status : Type := Status {
  status_running : bool;
  status_enabled : bool;
  status_last_scan : option Z;
  status_next_scan : option Z;
  status_scan_interval : Z;
  status_total_scans : Z;
  status_successful_scans : Z;
  status_failed_scans : Z;
  success_rate : Q
}.

Definition get_status (s : t) : result status :=
  (rate <- Py.truediv (successful_scans s) (Z.max (total_scans s) 1) ;;
   Ok (Status (running s) (enabled s) (last_scan s) (next_scan s)
         (scan_interval s) (total_scans s) (successful_scans s)
         (failed_scans s) rate))%py.

(** [set_scan_interval]; [write] is what writing the configuration file
    did, inside [config.set]. *)
Definition set_scan_interval
    (now : Z) (interval : Z) (write : result unit) (s : t) : ending :=
  if interval <? 60 then Raised ValueError s
  else
    let s := with_interval interval s in
    match write with
    | Raise e => Raised e (with_config_unsaved s)
    | Ok _ =>
        let s := with_config_saved s in
        if running s then schedule_and_return now s else Returned s
    end.

Definition trigger_scan_now (now : Z) (s : t) : result t :=
  if negb (running s) then Raise RuntimeError
  else Ok (with_next_scan (Some now) s).

Definition pause (s : t) : t := with_flags false (running s) s.

Definition resume (now : Z) (s : t) : ending :=
  if negb (running s) then Raised RuntimeError s
  else schedule_and_return now (with_flags true (running s) s).

Definition is_paused (s : t) : bool := negb (enabled s) && running s.

Definition get_next_scan_time (s : t) : option Z := next_scan s.

(** [get_time_until_next_scan]:
    [max(self.next_scan - datetime.now(), timedelta(0))], in seconds. *)
Definition get_time_until_next_scan (now : Z) (s : t) : option Z :=
  match next_scan s with
  | None => None
  | Some next => Some (Z.max (next - now) 0)
  end.

(** *** Executions: any sequence of method calls and loop passes *)
Inductive event : Type :=
| Start (now : Z)
| Stop
| Pause
| Resume (now : Z)
| SetScanInterval (now interval : Z) (write : result unit)
| TriggerScanNow (now : Z)
| LoopPass (current_time : Z) (run : scan_run).

(** The object after the call, whether it returned or raised. *)
Definition step (s : t) (e : event) : t :=
  match e with
  | Start now => after (start now s)
  | Stop => stop s
  | Pause => pause s
  | Resume now => after (resume now s)
  | SetScanInterval now interval write =>
      after (set_scan_interval now interval write s)
  | TriggerScanNow now => catch (trigger_scan_now now s) (fun _ => s)
  | LoopPass current_time run => _run_scheduler_pass current_time run s
  end.

Definition execute (s : t) (events : list event) : t :=
  fold_left step events s.

(** The scans started along an execution, one flag per event. *)
Definition fires (s : t) (e : event) : bool :=
  match e with
  | LoopPass current_time _ => running s && scan_due current_time s
  | _ => false
  end.

End Scheduler.

(** * Vocabulary of the properties *)

(** ** Text: occurrences and whole-word matches, in terms of [lower] and
    of the word boundaries of the embedding *)

Module TextSpec.

Import Text.

Local Open Scope string_scope.

(** The last character of [s], or [prev] when [s] is empty. *)
Fixpoint last_or (prev : option ascii) (s : string) : option ascii :=
  match s with
  | EmptyString => prev
  | String c s' => last_or (Some c) s'
  end.





End TextSpec.

(** ** Letters, words and occurrences, as a reader counts them

    The character classes are given by code point and the notions by what
    they say of the text, not by the functions of the embedding. *)

Module Reading.

Local Open Scope string_scope.

Definition codepoint (c : ascii) : Z := Z.of_nat (nat_of_ascii c).






Definition whitespace (c : ascii) : Prop :=
  9 <= codepoint c <= 13 \/ 28 <= codepoint c <= 32 \/
  codepoint c = 133 \/ codepoint c = 160.

(** A character that can stand inside a word: a letter, a digit, the
    underscore. *)
Definition word_character (c : ascii) : Prop :=
  48 <= codepoint c <= 57 \/ 65 <= codepoint c <= 90 \/ codepoint c = 95 \/
  97 <= codepoint c <= 122 \/ codepoint c = 170 \/
  178 <= codepoint c <= 179 \/ codepoint c = 181 \/
  185 <= codepoint c <= 186 \/ 188 <= codepoint c <= 190 \/
  192 <= codepoint c <= 214 \/ 216 <= codepoint c <= 246 \/
  248 <= codepoint c <= 255.

Fixpoint every (P : ascii -> Prop) (s : string) : Prop :=
  match s with
  | EmptyString => True
  | String c s' => P c /\ every P s'
  end.

Definition head (s : string) : option ascii :=
  match s with
  | EmptyString => None
  | String c _ => Some c
  end.

Fixpoint final (s : string) : option ascii :=
  match s with
  | EmptyString => None
  | String c s' =>
      match s' with
      | EmptyString => Some c
      | String _ _ => final s'
      end
  end.





(** A word: one character or more, none of them whitespace. *)
Definition solid (w : string) : Prop :=
  w <> "" /\ every (fun c => ~ whitespace c) w.

(** The words of a text, in order: the runs of characters between
    whitespace. *)
Inductive words_of : string -> list string -> Prop :=
| words_empty : words_of "" []
| words_skip c s ws :
    whitespace c -> words_of s ws -> words_of (String c s) ws
| words_word w rest ws :
    solid w ->
    (rest = "" \/ exists c r, rest = String c r /\ whitespace c) ->
    words_of rest ws ->
    words_of (w ++ rest) (w :: ws).




Definition items {A : Type} (l : list A) : Z := Z.of_nat (List.length l).

End Reading.

(** ** Binary64 numbers, as the standard specifies them *)

Module Binary64.

Definition plus (x y : spec_float) : spec_float := SFadd 53 1024 x y.





(** The rational a finite number stands for. *)
Definition value (x : spec_float) : Q :=
  match x with
  | S754_finite s m e =>
      ((if s then -1 else 1) * inject_Z (Zpos m) * Qpower 2 e)%Q
  | _ => 0%Q
  end.


Definition zero : spec_float := S754_zero false.
Definition tenth : spec_float := S754_finite false 7205759403792794 (-56).
Definition fifth : spec_float := S754_finite false 7205759403792794 (-55).
Definition three_tenths : spec_float := S754_finite false 5404319552844595 (-54).
Definition two_fifths : spec_float := S754_finite false 7205759403792794 (-54).
Definition one : spec_float := S754_finite false 4503599627370496 (-52).

(** 0.6000000000000001, the binary64 sum 0.2 + 0.2 + 0.2. *)
Definition three_fifths_up : spec_float :=
  S754_finite false 5404319552844596 (-53).



End Binary64.

(** ** The relevance filter, in the words of its description *)

Module FilterSpec.

Import TextSpec.

Definition ratio (a b : Z) : Q := (inject_Z a / inject_Z b)%Q.

(** *** The conditions as the code computes them *)


Definition combined_text (a : article) : string :=
  (Text.lower (title a) ++ " " ++ Text.lower (content a))%string.


(** *** The same conditions, read off the text *)

Import Reading.




(** Title, a space, content. *)
Definition text_of (a : article) : string :=
  (title a ++ " " ++ content a)%string.


End FilterSpec.

(** ** The record-time relevance score, in the words of its description *)

Module ScoreSpec.

Import TextSpec Reading Binary64.




End ScoreSpec.

(** ** Matching disciplines *)

Module MatchSpec.

Import TextSpec Reading.

(** The text the learning database reads: title, a space, cleaned
    content. *)
Definition text_of (a : article) : string :=
  (title a ++ " " ++ cleaned_content a)%string.





Section WithEstimators.

Variable sk : sklearn.


End WithEstimators.

End MatchSpec.

(** ** Training and feedback *)

Module TrainSpec.

Import LearningDatabase.

Section WithEstimators.

Variable sk : sklearn.

(** The texts and labels a training run reads from the table. *)
Definition training_texts (self : t sk) : list string :=
  map (fun row => (fst (fst row) ++ " " ++ snd (fst row))%string)
    (select_labelled (articles self)).

Definition training_labels (self : t sk) : list Z :=
  map snd (select_labelled (articles self)).

Definition labelled_count (self : t sk) : Z :=
  Py.len (select_labelled (articles self)).

(** Fitting the vectorizer and the classifier and evaluating the held-out
    accuracy, as one computation that either completes or raises. *)
Definition fit_and_evaluate (texts : list string) (labels : list Z)
    : result (vec sk * clf sk * Q) :=
  (fit <- tfidf_fit_transform sk texts ;;
   parts <- train_test_split sk (snd fit) labels ;;
   model <- nb_fit sk (fst (fst parts)) (fst (snd parts)) ;;
   y_pred <- nb_predict sk model (snd (fst parts)) ;;
   accuracy <- accuracy_score sk (snd (snd parts)) y_pred ;;
   Ok (fst fit, model, accuracy))%py.

(** The classifier state: vectorizer, model parameters, trained flag. *)
Definition classifier_state (self : t sk)
    : option (estimator (vec sk)) * option (estimator (clf sk)) * bool :=
  (vectorizer self, classifier self, model_trained self).

(** A training run that does not complete leaves the classifier state as
    it was. *)
Definition failure_keeps_state (now : Clock.t) (self : t sk) : Prop :=
  (labelled_count self < 50 \/
   exists e, fit_and_evaluate (training_texts self) (training_labels self)
             = Raise e) ->
  classifier_state (snd (_train_model sk now self)) = classifier_state self.

(** Where a run that raised has left the two estimator attributes.  The
    vectorizer is the one the run created, fitted on the current texts if
    its fit returned; the classifier is as it was if the run did not reach
    it, and else the one the run created, fitted if its fit returned.  The
    objects of an earlier run are kept in no other case. *)
Definition left_by_failed_run (self after : t sk) : Prop :=
  match tfidf_fit_transform sk (training_texts self) with
  | Raise _ =>
      vectorizer after = Some Unfitted /\ classifier after = classifier self
  | Ok (v, X) =>
      vectorizer after = Some (Fitted v) /\
      match train_test_split sk X (training_labels self) with
      | Raise _ => classifier after = classifier self
      | Ok parts =>
          match nb_fit sk (fst (fst parts)) (fst (snd parts)) with
          | Raise _ => classifier after = Some Unfitted
          | Ok model => classifier after = Some (Fitted model)
          end
      end
  end.

(** The label a kind of feedback stands for, if any. *)
Definition interest_of (kind : string) : option Z :=
  if (kind =? "interested")%string then Some 1
  else if (kind =? "not_interested")%string then Some 0
  else None.

(** The row a feedback event adds to the feedback table. *)
Definition new_feedback_row (now : Clock.t) (article_id : Z) (kind : string)
    (self : t sk) : feedback_row :=
  FeedbackRow (next_id (map feedback_id (user_feedback self)))
    article_id kind (Clock.now_isoformat now).

(** The database once the event is stored and the label updated. *)
Definition stored (now : Clock.t) (article_id : Z) (kind : string)
    (self : t sk) : t sk :=
  let appended :=
    with_user_feedback sk
      (user_feedback self ++ [new_feedback_row now article_id kind self]) self in
  match interest_of kind with
  | Some v =>
      with_articles sk
        (update_user_interest v article_id (articles appended)) appended
  | None => appended
  end.

(** No article of the table has this identity. *)
Definition unknown (article_id : Z) (self : t sk) : Prop :=
  forall row, In row (articles self) -> row_id row <> article_id.

End WithEstimators.

(** *** A small estimator kit

    Its vectorizer keeps the words of two or more characters and, like
    scikit-learn's, raises [ValueError] on an empty vocabulary; its
    classifier predicts the first label it was fitted on. *)

Definition vocabulary (texts : list string) : list string :=
  nodup string_dec
    (filter (fun word => 2 <=? Text.len word)
       (flat_map (fun text => Text.split (Text.lower text)) texts)).

Definition small_kit : sklearn :=
  {| vec := list string;
     mat := list string;
     clf := Z;
     tfidf_fit_transform texts :=
       match vocabulary texts with
       | [] => Raise ValueError
       | words => Ok (words, texts)
       end;
     tfidf_transform _ texts := Ok texts;
     train_test_split X y :=
       let n := (List.length X * 4 / 5)%nat in
       Ok ((firstn n X, skipn n X), (firstn n y, skipn n y));
     nb_fit _ y := match y with [] => Raise ValueError | label :: _ => Ok label end;
     nb_predict model X := Ok (map (fun _ => model) X);
     nb_predict_proba _ X := Ok (map (fun _ => [1%Q]) X);
     accuracy_score y_true y_pred :=
       Py.truediv
         (Py.len (filter (fun p => fst p =? snd p) (combine y_true y_pred)))
         (Py.len y_true);
     count_vectorizer_features text := Ok (firstn 10 (vocabulary [text])) |}.

Definition labelled_row (title content : string) (label : Z) (id : Z)
    : article_row :=
  {| row_id := id;
     row_title := title;
     row_content := content;
     row_image_url := None;
     row_link := "";
     row_source_url := "";
     row_scraped_at := "2026-11-01T08:00:00";
     relevance_score := Float.zero;
     user_interest := Some label;
     row_keywords := [];
     processed := false |}.

Definition ids (n : nat) : list Z := map Z.of_nat (seq 1 n).


(** 2026-11-03T23:00:00 on a machine whose local time is UTC. *)
Definition late_evening : Clock.t :=
  {| Clock.local_seconds := 1793746800;
     Clock.microsecond := 0;
     Clock.utc_seconds := 1793746800 |}.

(** Feedback rows written at the given instants of local time. *)
Definition feedback_written_at (instants : list Z) : list feedback_row :=
  map (fun p => FeedbackRow (fst p) 1 "clicked" (Clock.isoformat (snd p) 0))
    (combine (ids (List.length instants)) instants).

(** One article and nine feedback events, all written 46 hours and a half
    before [late_evening]. *)
Definition stale_instant : Z := 1793746800 - 167400.

Definition stale_db : t small_kit :=
  Make small_kit
    [labelled_row "Local news of the week" "Some text" 1 1]
    (feedback_written_at (repeat stale_instant 9)) []
    None None None false [].

(** The events among [instants] that lie in the 24 hours before [now]. *)
Definition within_last_day (now : Z) (instants : list Z) : Z :=
  Py.len (filter (fun t => (now - 86400 <? t) && (t <=? now)) instants).

(** One stored article and nine feedback events for it, written an hour
    before [late_evening]. *)
Definition recent_db : t small_kit :=
  Make small_kit
    [labelled_row "Local news of the week" "Some text" 1 1]
    (feedback_written_at (repeat (1793746800 - 3600) 9)) []
    None None None false [].

End TrainSpec.

(** ** The scheduler *)

Module SchedSpec.

Import Scheduler.

(** Every scan counted is counted as a success or as a failure. *)
Definition counters_consistent (s : t) : Prop :=
  total_scans s = successful_scans s + failed_scans s /\
  0 <= successful_scans s /\ 0 <= failed_scans s.

Definition same_counters (s s' : t) : Prop :=
  total_scans s' = total_scans s /\
  successful_scans s' = successful_scans s /\
  failed_scans s' = failed_scans s.

(** One more scan, counted once as a success or once as a failure. *)
Definition one_more_scan (s s' : t) : Prop :=
  total_scans s' = total_scans s + 1 /\
  ((successful_scans s' = successful_scans s + 1 /\
    failed_scans s' = failed_scans s) \/
   (successful_scans s' = successful_scans s /\
    failed_scans s' = failed_scans s + 1)).

(** The sum of a scan time and an interval can be computed: the interval
    makes a [timedelta] (999999999 days at most, in magnitude) and the sum
    is a date of the years 1 to 9999. *)
Definition schedulable (last interval : Z) : Prop :=
  -999999999 <= interval / 86400 <= 999999999 /\
  -62135596800 <= last + interval <= 253402300799.

(** The next scan time is the last scan time plus the interval. *)
Definition rescheduled_from_last (interval : Z) (s s' : t) : Prop :=
  forall last, last_scan s = Some last -> next_scan s' = Some (last + interval).

(** Started at 1000, paused before the first scan is due at 1060. *)
Definition paused_before_first_scan : t :=
  execute (init Config.default) [Start 1000; Pause].

(** Started at 1000; the first scan ran from 1060 to 1075 and found three
    articles, so the next one is due at 1075 + 3600. *)
Definition after_first_scan : t :=
  execute (init Config.default)
    [Start 1000; LoopPass 1060 (ScanRun (Completed 3) 1075)].

(** The scan that comes due at 4675 is started by the pass of 4680 and
    fails at 4690. *)
Definition failing_pass : event :=
  LoopPass 4680 (ScanRun (Failed RuntimeError) 4690).

End SchedSpec.

(** ** Executions of the learning database *)

Module DbSpec.

Import LearningDatabase.

Section WithEstimators.

Variable sk : sklearn.

(** A database on a new file, before its model is looked for. *)
Definition empty : t sk := Make sk [] [] [] None None None false [].

Inductive event : Type :=
| RecordArticle (config : Config.t) (a : article)
| UserFeedback (now : Clock.t) (article_id : Z) (kind : string).

Definition step (s : t sk) (e : event) : t sk :=
  match e with
  | RecordArticle config a => snd (record_article sk config a s)
  | UserFeedback now article_id kind =>
      snd (record_user_feedback sk now article_id kind s)
  end.

Definition execute (s : t sk) (events : list event) : t sk :=
  fold_left step events s.

(** Everything but the log is the same. *)
Definition same_but_log (s s' : t sk) : Prop :=
  articles s' = articles s /\
  user_feedback s' = user_feedback s /\
  performance_metrics s' = performance_metrics s /\
  model_file s' = model_file s /\
  vectorizer s' = vectorizer s /\
  classifier s' = classifier s /\
  model_trained s' = model_trained s.

(** A label is absent, 0 or 1. *)
Definition binary_label (row : article_row) : Prop :=
  user_interest row = None \/ user_interest row = Some 0 \/
  user_interest row = Some 1.

(** What an article row keeps for ever: all but its label. *)
Definition unlabelled (row : article_row) : article_row :=
  ArticleRow (row_id row) (row_title row) (row_content row)
    (row_image_url row) (row_link row) (row_source_url row)
    (row_scraped_at row) (relevance_score row) None (row_keywords row)
    (processed row).

End WithEstimators.

End DbSpec.

(** ** A training run that fails, from a new database *)

Module TrainCases.

Import LearningDatabase TrainSpec DbSpec.

Definition one_letter_article : article :=
  {| title := "a";
     content := "";
     cleaned_content := "i";
     image_url := None;
     link := "";
     source_url := "";
     scraped_at := "" |}.

(** Fifty articles with one-letter texts are recorded, and the user marks
    the first forty-nine of them as interesting. *)
Definition one_letter_history : list event :=
  repeat (RecordArticle Config.default one_letter_article) 50 ++
  map (fun id => UserFeedback late_evening id "interested") (ids 49).

(** The database as constructed on new files, late in the evening. *)
Definition new_database : t small_kit :=
  init small_kit [] [] [] None (Ok tt) late_evening.

(** The database these calls lead to. *)
Definition before_fiftieth : t small_kit :=
  execute small_kit new_database one_letter_history.

End TrainCases.

(** ** Sequences of updates of a filter *)

Module FilterOps.

Inductive update : Type :=
| UpdateKeywords (new_keywords : list string)
| UpdateBlacklist (new_blacklist : list string).

Definition apply_update (self : ContentFilter.t) (u : update) : ContentFilter.t :=
  match u with
  | UpdateKeywords l => ContentFilter.update_keywords self l
  | UpdateBlacklist l => ContentFilter.update_blacklist self l
  end.

Definition apply_updates (self : ContentFilter.t) (updates : list update)
    : ContentFilter.t :=
  fold_left apply_update updates self.

End FilterOps.

(** ** Cleaned content *)

Module CleanSpec.

(** Every character of [s] satisfies [p]. *)
Fixpoint every (p : ascii -> bool) (s : string) : bool :=
  match s with
  | EmptyString => true
  | String c s' => p c && every p s'
  end.

(** A word character, the plain space, or one of [. , ! ? - : ;]. *)
Definition clean_char (c : ascii) : bool :=
  Text.isword c || Ascii.eqb c " " ||
  existsb (Ascii.eqb c) ["."; ","; "!"; "?"; "-"; ":"; ";"]%char.

(** Not whitespace, unless the plain space. *)
Definition plain_space (c : ascii) : bool :=
  negb (Text.isspace c) || Ascii.eqb c " ".

Definition space_at (c : option ascii) : bool :=
  match c with
  | Some c => Text.isspace c
  | None => false
  end.

Definition newline : string := String (ascii_of_N 10) EmptyString.
Definition tab : string := String (ascii_of_N 9) EmptyString.

(** *** Clean text, read off the text *)

(** One of the punctuation marks that stay. *)
Definition kept_mark (c : ascii) : Prop :=
  In c ["."; ","; "!"; "?"; "-"; ":"; ";"]%char.

(** A character of clean text other than the space. *)
Definition clean_letter (c : ascii) : Prop :=
  Reading.word_character c \/ kept_mark c.

(** The words, with one space between two neighbours. *)
Fixpoint joined (ws : list string) : string :=
  match ws with
  | [] => EmptyString
  | w :: ws' =>
      match ws' with
      | [] => w
      | _ :: _ => (w ++ " " ++ joined ws')%string
      end
  end.

End CleanSpec.

(** * Properties *)

(** ** The embedding at work *)

Section Samples.

Local Open Scope string_scope.

Example split_runs : Text.split " two  words " = ["two"; "words"].
Proof. reflexivity. Qed.

Example search_whole_word :
  Text.search (Text.compile_word "Art") "modern art today" = true /\
  Text.search (Text.compile_word "art") "party time" = false /\
  Text.contains "art" "party time" = true.
Proof. repeat split. Qed.

Example isoformat_sample :
  Clock.isoformat 1793579400 0 = "2026-11-02T00:30:00" /\
  Clock.isoformat 951782399 250 = "2000-02-28T23:59:59.000250" /\
  Clock.sqlite_datetime 1793660400 = "2026-11-02 23:00:00".
Proof. repeat split. Qed.

Example short_article_rejected :
  ContentFilter.is_relevant (ContentFilter.init Config.default)
    (Article "Breaking News Today" "short" "" None "" "" "") = false.
Proof. reflexivity. Qed.

Example blacklisted_article_rejected :
  ContentFilter.is_relevant
    (ContentFilter.init (Config.Make 3600 ["news"] ["spam"] 10 true))
    (Article "Campaign report"
       "Big news about spam campaign today with sufficient length to pass minimum"
       "" None "" "" "") = false.
Proof. reflexivity. Qed.

Example plain_article_accepted :
  ContentFilter.is_relevant (ContentFilter.init Config.default)
    (Article "Harbour news of the week"
       ("The council met on Monday and agreed a new plan for the old harbour, " ++
        "which opens to visitors next spring after two years of careful work.")
       "" None "" "" "") = true.
Proof. reflexivity. Qed.

Example shouting_title_rejected :
  ContentFilter.is_relevant (ContentFilter.init Config.default)
    (Article "HARBOUR NEWS of the week"
       ("The council met on Monday and agreed a new plan for the old harbour, " ++
        "which opens to visitors next spring after two years of careful work.")
       "" None "" "" "") = false.
Proof. reflexivity. Qed.

(** 0.2 for the title, 0.4 for the three keywords of three, 0.2 for the
    image: 0.8. *)
Example score_sample :
  LearningDatabase._calculate_relevance_score Config.default
    (Article "Harbour news of the week" "" "An important update." (Some "h.png")
       "" "" "")
  = S754_finite false 7205759403792794 (-53).
Proof. reflexivity. Qed.

(** Python on code points above 127: the capitals of [CAFÉ À LA CRÈME]
    count, and a no-break space separates words. *)
Example latin1_sample :
  Text.lower (String (ascii_of_N 201) "T" ++ String (ascii_of_N 200) "") =
  String (ascii_of_N 233) "t" ++ String (ascii_of_N 232) "" /\
  Text.count_chars Text.isupper (String (ascii_of_N 201) "cole") = 1 /\
  Text.split ("deux" ++ String (ascii_of_N 160) "mots") = ["deux"; "mots"] /\
  Text.search (Text.compile_word "t") (String (ascii_of_N 233) "t" ++ " x") = false.
Proof. repeat split. Qed.

End Samples.

(** ** Text: what a substring test and a pattern search decide *)

Section TextFacts.

Import Text TextSpec.

Local Open Scope string_scope.

Lemma append_assoc (a b c : string) : (a ++ b) ++ c = a ++ b ++ c.
Proof. induction a as [|x a IH]; simpl; [reflexivity | now rewrite IH]. Qed.



Lemma last_or_append (prev : option ascii) (a b : string) :
  last_or prev (a ++ b) = last_or (last_or prev a) b.
Proof.
  revert prev; induction a as [|x a IH]; intros prev; simpl;
    [reflexivity | apply IH].
Qed.









Lemma filter_len_bounds {A : Type} (f : A -> bool) (l : list A) :
  0 <= Py.len (filter f l) <= Py.len l.
Proof.
  unfold Py.len. pose proof (filter_length_le f l). lia.
Qed.







Lemma lower_length (s : string) : String.length (lower s) = String.length s.
Proof. induction s as [|c s IH]; cbn; [reflexivity | now rewrite IH]. Qed.

End TextFacts.

(** ** The helpers of the embedding against the reading of a text *)

Section CharFacts.

Import Text TextSpec Reading.

Local Open Scope string_scope.

Lemma codepoint_code (c : ascii) : codepoint c = Z.of_N (code c).
Proof. unfold codepoint, code, nat_of_ascii. apply N_nat_Z. Qed.


Lemma between_spec (lo hi : N) (c : ascii) :
  between lo hi c = true <-> Z.of_N lo <= codepoint c <= Z.of_N hi.
Proof.
  unfold between. rewrite andb_true_iff, !N.leb_le, codepoint_code. lia.
Qed.

Lemma is_code_spec (n : N) (c : ascii) :
  is_code n c = true <-> codepoint c = Z.of_N n.
Proof. unfold is_code. rewrite N.eqb_eq, codepoint_code. lia. Qed.


Lemma isspace_spec (c : ascii) : isspace c = true <-> whitespace c.
Proof.
  unfold isspace, whitespace.
  rewrite !orb_true_iff, !between_spec, !is_code_spec. cbn. tauto.
Qed.

Lemma isword_spec (c : ascii) : isword c = true <-> word_character c.
Proof.
  unfold isword, word_character.
  rewrite !orb_true_iff, !between_spec, !is_code_spec. cbn. tauto.
Qed.


Lemma not_isspace (c : ascii) : isspace c = false <-> ~ whitespace c.
Proof. rewrite <- isspace_spec. now destruct (isspace c). Qed.








Lemma final_nonempty (s : string) : forall c,
  exists x, final (String c s) = Some x.
Proof.
  induction s as [|d s IH]; intros c; [now exists c |].
  destruct (IH d) as [x Hx]. exists x. cbn [final] in *. exact Hx.
Qed.

Lemma final_last_or (s : string) (prev : option ascii) :
  last_or prev s =
  match final s with
  | Some x => Some x
  | None => prev
  end.
Proof.
  revert prev. induction s as [|c s IH]; intros prev; [reflexivity |].
  cbn [last_or]. rewrite IH. destruct s as [|d s]; [reflexivity |].
  destruct (final_nonempty s d) as [x Hx].
  change (final (String c (String d s))) with (final (String d s)).
  now rewrite Hx.
Qed.

Lemma final_spec (s : string) : last_or None s = final s.
Proof. rewrite final_last_or. now destruct (final s). Qed.

Lemma head_spec (s : string) : first s = head s.
Proof. now destruct s. Qed.








(** *** Words *)

Lemma list_of_append (a b : string) :
  list_ascii_of_string (a ++ b) =
  (list_ascii_of_string a ++ list_ascii_of_string b)%list.
Proof. induction a as [|c a IH]; cbn; [reflexivity | now rewrite IH]. Qed.

Lemma split_from_solid (w : string) :
  every (fun c => ~ whitespace c) w ->
  forall cur rest,
    split_from cur (w ++ rest) =
    split_from (rev (list_ascii_of_string w) ++ cur)%list rest.
Proof.
  induction w as [|c w IH]; intros Hw cur rest; [reflexivity |].
  destruct Hw as [Hc Hw]. cbn [append split_from].
  rewrite (proj2 (not_isspace c) Hc), (IH Hw).
  cbn [list_ascii_of_string rev]. now rewrite <- app_assoc.
Qed.

Lemma split_from_gap (cur : list ascii) (rest : string) :
  rest = "" \/ (exists c r, rest = String c r /\ whitespace c) ->
  split_from cur rest = flush cur (split rest).
Proof.
  intros [-> | (c & r & -> & Hc)]; [reflexivity |].
  unfold split. cbn [split_from]. now rewrite (proj2 (isspace_spec c) Hc).
Qed.

Lemma flush_word (w : string) (rest : list string) :
  w <> "" -> flush (rev (list_ascii_of_string w)) rest = w :: rest.
Proof.
  intros Hw. unfold flush.
  destruct (rev (list_ascii_of_string w)) as [|x l] eqn:E.
  - apply (f_equal (@rev ascii)) in E. rewrite rev_involutive in E. cbn in E.
    destruct w; [now contradiction Hw | discriminate].
  - rewrite <- E, rev_involutive, string_of_list_ascii_of_string. reflexivity.
Qed.

Lemma words_of_split (s : string) (ws : list string) :
  words_of s ws -> ws = split s.
Proof.
  induction 1 as [|c s ws Hc _ IH|w rest ws [Hne Hw] Hrest _ IH].
  - reflexivity.
  - unfold split. cbn [split_from]. now rewrite (proj2 (isspace_spec c) Hc).
  - unfold split. rewrite (split_from_solid w Hw), app_nil_r.
    rewrite (split_from_gap _ rest Hrest), (flush_word w _ Hne). now rewrite IH.
Qed.

Lemma split_from_words (s : string) : forall pre,
  every (fun c => ~ whitespace c) pre ->
  words_of (pre ++ s) (split_from (rev (list_ascii_of_string pre)) s).
Proof.
  induction s as [|c s IH]; intros pre Hpre.
  - cbn [split_from]. destruct pre as [|x pre].
    + constructor.
    + rewrite flush_word by discriminate.
      apply words_word; [split; [discriminate | exact Hpre] | now left | constructor].
  - cbn [split_from]. destruct (isspace c) eqn:E.
    + assert (Hs : words_of (String c s) (split_from [] s)).
      { apply words_skip; [now apply isspace_spec | exact (IH "" I)]. }
      destruct pre as [|x pre]; [exact Hs |].
      rewrite flush_word by discriminate.
      apply words_word; [split; [discriminate | exact Hpre] | | exact Hs].
      right. exists c, s. split; [reflexivity | now apply isspace_spec].
    + specialize (IH (pre ++ String c "")).
      rewrite list_of_append, rev_app_distr in IH. cbn in IH.
      rewrite append_assoc in IH. apply IH.
      clear IH. induction pre as [|x pre IHp].
      * cbn. split; [now apply not_isspace | exact I].
      * destruct Hpre as [Hx Hpre]. cbn. split; [exact Hx | now apply IHp].
Qed.

(** [str.split()] gives the words of the text. *)
Lemma words_of_spec (s : string) (ws : list string) :
  words_of s ws <-> ws = split s.
Proof.
  split; [apply words_of_split |]. intros ->. exact (split_from_words s "" I).
Qed.





End CharFacts.

(** ** Numbers *)

Section NumberFacts.



Lemma truediv_ok (a b : Z) :
  b <> 0 -> Py.truediv a b = Ok (FilterSpec.ratio a b).
Proof.
  intros Hb. unfold Py.truediv. destruct (Z.eqb_spec b 0); [contradiction |].
  reflexivity.
Qed.

Lemma ratio_unit_interval (a b : Z) :
  0 <= a <= b -> 0 < b -> (0 <= FilterSpec.ratio a b <= 1)%Q.
Proof.
  intros [Ha Hab] Hb. unfold FilterSpec.ratio.
  assert (Hb' : (0 < inject_Z b)%Q) by (unfold Qlt; simpl; lia).
  split.
  - apply Qle_shift_div_l; [exact Hb' |].
    rewrite Qmult_0_l. unfold Qle; simpl; lia.
  - apply Qle_shift_div_r; [exact Hb' |].
    rewrite Qmult_1_l. unfold Qle; simpl; lia.
Qed.

End NumberFacts.

(** ** Binary64: signs and comparisons

    Sums, products and quotients of numbers that are not negative are not
    negative and are not NaN; the rounding steps keep the sign. *)

Section FloatFacts.

Import Binary64.















End FloatFacts.

(** ** The relevance filter *)

Section FilterFacts.

Import TextSpec FilterSpec.









(** *** The conditions, read off the text *)

Import Reading.








End FilterFacts.

(** ** The record-time relevance score *)

Section ScoreFacts.

Import TextSpec Reading Binary64 ScoreSpec.









End ScoreFacts.

(** ** Whole-word and substring matching *)

Section MatchFacts.

Import TextSpec Reading MatchSpec.











End MatchFacts.

(** ** Training *)

Section TrainFacts.

Import LearningDatabase TrainSpec.

Variable sk : sklearn.

Arguments Clock.now_isoformat : simpl never.
Arguments Clock.sqlite_now_minus_1_day : simpl never.

Ltac run_method :=
  unfold _save_model, _record_performance_metric;
  unfold try_except, mbind, get, modify, lift, log, ret; cbn beta iota.

Lemma training_texts_eq (self : t sk) :
  map (fun row => Text.join_space (fst (fst row)) (snd (fst row)))
    (select_labelled (articles self)) = training_texts sk self.
Proof. reflexivity. Qed.

(** Below fifty labelled articles a run only logs a warning. *)
Lemma train_refused (now : Clock.t) (self : t sk) :
  labelled_count sk self < 50 ->
  _train_model sk now self =
  (Ok tt,
   with_logged sk (logged self ++ [Log WARNING "Not enough data for training"])
     self).
Proof.
  intros H. unfold labelled_count in H. unfold _train_model. run_method.
  destruct (Z.ltb_spec (Py.len (select_labelled (articles self))) 50);
    [reflexivity | lia].
Qed.

(** A run on fifty or more labelled articles that completes. *)
Lemma train_completes (now : Clock.t) (self : t sk) v c acc :
  50 <= labelled_count sk self ->
  fit_and_evaluate sk (training_texts sk self) (training_labels sk self)
    = Ok (v, c, acc) ->
  let after := snd (_train_model sk now self) in
  fst (_train_model sk now self) = Ok tt /\
  vectorizer after = Some (Fitted v) /\
  classifier after = Some (Fitted c) /\
  model_trained after = true /\
  articles after = articles self /\
  user_feedback after = user_feedback self /\
  logged after =
  logged self ++
  [Log INFO "Model trained with accuracy"; Log INFO "Model saved successfully"].
Proof.
  intros H Hfit. unfold labelled_count in H. unfold _train_model. run_method.
  destruct (Z.ltb_spec (Py.len (select_labelled (articles self))) 50); [lia |].
  rewrite training_texts_eq. fold (training_labels sk self).
  unfold fit_and_evaluate in Hfit.
  destruct (tfidf_fit_transform sk _) as [[v0 X] | e0]; [| discriminate].
  cbn [bind fst snd] in Hfit |- *.
  destruct (train_test_split sk X _) as [[[X_train X_test] [y_train y_test]] | e1];
    [| discriminate].
  cbn [bind fst snd] in Hfit |- *.
  destruct (nb_fit sk X_train y_train) as [model | e2]; [| discriminate].
  cbn [bind fst snd] in Hfit |- *.
  destruct (nb_predict sk model X_test) as [y_pred | e3]; [| discriminate].
  cbn [bind fst snd] in Hfit |- *.
  destruct (accuracy_score sk y_test y_pred) as [accuracy | e4]; [| discriminate].
  cbn [bind fst snd] in Hfit |- *. injection Hfit as -> -> ->.
  cbn. repeat split. now rewrite <- app_assoc.
Qed.

(** A run on fifty or more labelled articles that does not complete: the
    flag and the tables stay, an error is logged, and the estimator
    attributes hold what the run has assigned by then. *)
Lemma train_interrupted (now : Clock.t) (self : t sk) e :
  50 <= labelled_count sk self ->
  fit_and_evaluate sk (training_texts sk self) (training_labels sk self)
    = Raise e ->
  let after := snd (_train_model sk now self) in
  fst (_train_model sk now self) = Ok tt /\
  model_trained after = model_trained self /\
  articles after = articles self /\
  user_feedback after = user_feedback self /\
  logged after = logged self ++ [Log ERROR "Error training model"] /\
  left_by_failed_run sk self after.
Proof.
  intros H Hfit. unfold labelled_count in H. cbv zeta.
  unfold left_by_failed_run, _train_model. run_method.
  destruct (Z.ltb_spec (Py.len (select_labelled (articles self))) 50); [lia |].
  rewrite training_texts_eq. fold (training_labels sk self).
  unfold fit_and_evaluate in Hfit.
  destruct (tfidf_fit_transform sk _) as [[v0 X] | e0];
    [| cbn; now repeat split].
  cbn [bind fst snd] in Hfit |- *.
  destruct (train_test_split sk X _) as [[[X_train X_test] [y_train y_test]] | e1];
    [| cbn; now repeat split].
  cbn [bind fst snd] in Hfit |- *.
  destruct (nb_fit sk X_train y_train) as [model | e2];
    [| cbn; now repeat split].
  cbn [bind fst snd] in Hfit |- *.
  destruct (nb_predict sk model X_test) as [y_pred | e3];
    [| cbn; now repeat split].
  cbn [bind fst snd] in Hfit |- *.
  destruct (accuracy_score sk y_test y_pred) as [accuracy | e4];
    [discriminate | cbn; now repeat split].
Qed.

Lemma fit_and_evaluate_cases (texts : list string) (labels : list Z) :
  (exists v c acc, fit_and_evaluate sk texts labels = Ok (v, c, acc)) \/
  (exists e, fit_and_evaluate sk texts labels = Raise e).
Proof.
  destruct (fit_and_evaluate sk texts labels) as [[[v c] acc] | e].
  - left. now exists v, c, acc.
  - right. now exists e.
Qed.

(** Training neither raises nor touches the article and feedback tables. *)
Lemma train_frame (now : Clock.t) (self : t sk) :
  fst (_train_model sk now self) = Ok tt /\
  articles (snd (_train_model sk now self)) = articles self /\
  user_feedback (snd (_train_model sk now self)) = user_feedback self.
Proof.
  destruct (Z.lt_ge_cases (labelled_count sk self) 50) as [H | H].
  - rewrite train_refused by exact H. now repeat split.
  - destruct (fit_and_evaluate_cases (training_texts sk self)
                (training_labels sk self)) as [[v [c [acc Hfit]]] | [e Hfit]].
    + destruct (train_completes now self v c acc H Hfit)
        as [H1 [_ [_ [_ [H2 [H3 _]]]]]].
      now repeat split.
    + destruct (train_interrupted now self e H Hfit)
        as [H1 [_ [H2 [H3 _]]]].
      now repeat split.
Qed.

(** Every training run leaves a trace in the log. *)
Lemma train_logs (now : Clock.t) (self : t sk) :
  exists records,
    records <> [] /\
    logged (snd (_train_model sk now self)) = logged self ++ records.
Proof.
  destruct (Z.lt_ge_cases (labelled_count sk self) 50) as [H | H].
  - rewrite train_refused by exact H. eexists. split; [| reflexivity].
    discriminate.
  - destruct (fit_and_evaluate_cases (training_texts sk self)
                (training_labels sk self)) as [[v [c [acc Hfit]]] | [e Hfit]].
    + destruct (train_completes now self v c acc H Hfit)
        as [_ [_ [_ [_ [_ [_ Hl]]]]]].
      eexists. split; [| exact Hl]. discriminate.
    + destruct (train_interrupted now self e H Hfit)
        as [_ [_ [_ [_ [Hl _]]]]].
      eexists. split; [| exact Hl]. discriminate.
Qed.

(** C3, amended.  A training run never raises.  With fewer than fifty
    labelled articles it logs a warning and changes nothing else: the
    vectorizer, the classifier and the trained flag are as before.  With
    fifty or more, a run whose fitting and evaluation complete leaves a
    fitted vectorizer, a fitted classifier and the trained flag set; a run
    in which one of them raises logs an error and leaves the trained flag as
    it was, while the vectorizer attribute holds the estimator this run
    created (fitted on the current texts if its fit returned) and the
    classifier attribute holds the one this run created if the run got that
    far: the objects of an earlier run are not kept.  The trained flag is
    switched on by completed runs only. *)
Theorem train_model_outcomes (now : Clock.t) (self : t sk) :
  let after := snd (_train_model sk now self) in
  let fit :=
    fit_and_evaluate sk (training_texts sk self) (training_labels sk self) in
  fst (_train_model sk now self) = Ok tt /\
  (labelled_count sk self < 50 ->
   after =
   with_logged sk
     (logged self ++ [Log WARNING "Not enough data for training"]) self /\
   classifier_state sk after = classifier_state sk self) /\
  (forall v c acc,
     50 <= labelled_count sk self -> fit = Ok (v, c, acc) ->
     classifier_state sk after = (Some (Fitted v), Some (Fitted c), true)) /\
  (forall e,
     50 <= labelled_count sk self -> fit = Raise e ->
     model_trained after = model_trained self /\
     logged after = logged self ++ [Log ERROR "Error training model"] /\
     left_by_failed_run sk self after) /\
  (model_trained after = true ->
   model_trained self = true \/
   (50 <= labelled_count sk self /\ exists v c acc, fit = Ok (v, c, acc))).
Proof.
  cbv zeta. split; [apply train_frame |].
  split.
  { intros H. rewrite (train_refused now self H). now split. }
  split.
  { intros v c acc H Hfit.
    destruct (train_completes now self v c acc H Hfit)
      as [_ [Hv [Hc [Ht _]]]].
    unfold classifier_state. now rewrite Hv, Hc, Ht. }
  split.
  { intros e H Hfit.
    destruct (train_interrupted now self e H Hfit)
      as [_ [Ht [_ [_ [Hl Hv]]]]].
    now repeat split. }
  intros Hafter.
  destruct (Z.lt_ge_cases (labelled_count sk self) 50) as [H | H].
  - rewrite (train_refused now self H) in Hafter. now left.
  - destruct (fit_and_evaluate_cases (training_texts sk self)
                (training_labels sk self)) as [[v [c [acc Hfit]]] | [e Hfit]].
    + right. split; [exact H |]. now exists v, c, acc.
    + destruct (train_interrupted now self e H Hfit) as [_ [Ht _]].
      left. now rewrite <- Ht.
Qed.

(** *** Feedback *)

(** [record_user_feedback] step by step: the event is stored, then the
    retrain condition is evaluated on the table that holds it, then the
    model is trained or not; nothing is raised. *)
Lemma record_user_feedback_steps
    (now : Clock.t) (article_id : Z) (kind : string) (self : t sk) :
  record_user_feedback sk now article_id kind self =
  let s1 := stored sk now article_id kind self in
  let s2 :=
    if recent_feedback now (user_feedback s1) >=? 10
    then snd (_train_model sk now s1) else s1 in
  (Ok tt, with_logged sk (logged s2 ++ [Log INFO "Recorded feedback"]) s2).
Proof.
  unfold record_user_feedback, _should_retrain, stored, interest_of,
    new_feedback_row.
  run_method.
  destruct (kind =? "interested")%string;
    [| destruct (kind =? "not_interested")%string]; cbn beta iota zeta;
    match goal with
    | |- context [recent_feedback now ?rows >=? 10] =>
        destruct (recent_feedback now rows >=? 10)
    end;
    try reflexivity;
    match goal with
    | |- context [_train_model sk now ?s] =>
        destruct (train_frame now s) as [Hr _];
        destruct (_train_model sk now s) as [r s2];
        cbn [fst snd] in Hr |- *; subst r; reflexivity
    end.
Qed.

Lemma stored_tables
    (now : Clock.t) (article_id : Z) (kind : string) (self : t sk) :
  let s1 := stored sk now article_id kind self in
  user_feedback s1 =
  user_feedback self ++ [new_feedback_row sk now article_id kind self] /\
  articles s1 =
  match interest_of kind with
  | Some v => update_user_interest v article_id (articles self)
  | None => articles self
  end /\
  logged s1 = logged self.
Proof.
  cbv zeta. unfold stored. destruct (interest_of kind); now repeat split.
Qed.

(** What [record_user_feedback] does to the two tables, and that it does
    not raise. *)
Lemma record_user_feedback_tables
    (now : Clock.t) (article_id : Z) (kind : string) (self : t sk) :
  let after := snd (record_user_feedback sk now article_id kind self) in
  fst (record_user_feedback sk now article_id kind self) = Ok tt /\
  user_feedback after =
  user_feedback self ++ [new_feedback_row sk now article_id kind self] /\
  articles after =
  match interest_of kind with
  | Some v => update_user_interest v article_id (articles self)
  | None => articles self
  end.
Proof.
  rewrite record_user_feedback_steps. cbv zeta. cbn [fst snd].
  destruct (stored_tables now article_id kind self) as [Hf [Ha _]].
  set (s1 := stored sk now article_id kind self) in *.
  destruct (train_frame now s1) as [_ [Ha' Hf']].
  destruct (recent_feedback now (user_feedback s1) >=? 10); cbn;
    rewrite ?Ha', ?Hf'; now repeat split.
Qed.

(** The feedback event is in the table when the retrain condition is
    evaluated, and the training method is entered exactly when the table,
    the new row included, holds ten rows or more whose timestamp compares
    above the day-old threshold. *)
Lemma retrain_check_reads_new_event
    (now : Clock.t) (article_id : Z) (kind : string) (self : t sk) :
  let after := snd (record_user_feedback sk now article_id kind self) in
  let table :=
    user_feedback self ++ [new_feedback_row sk now article_id kind self] in
  (recent_feedback now table < 10 ->
   logged after = logged self ++ [Log INFO "Recorded feedback"]) /\
  (10 <= recent_feedback now table ->
   exists records,
     records <> [] /\
     logged after = logged self ++ records ++ [Log INFO "Recorded feedback"]).
Proof.
  rewrite record_user_feedback_steps. cbv zeta. cbn [snd].
  destruct (stored_tables now article_id kind self) as [Hf [_ Hl]].
  set (s1 := stored sk now article_id kind self) in *.
  rewrite Hf.
  destruct (Z.geb_spec
              (recent_feedback now
                 (user_feedback self ++
                  [new_feedback_row sk now article_id kind self])) 10)
    as [Hge | Hlt].
  - split; [lia |]. intros _.
    destruct (train_logs now s1) as [records [Hne Hrec]].
    exists records. split; [exact Hne |].
    cbn. now rewrite Hrec, Hl, app_assoc.
  - split; [| lia]. intros _. cbn. now rewrite Hl.
Qed.

Lemma update_unknown (v article_id : Z) (rows : list article_row) :
  (forall row, In row rows -> row_id row <> article_id) ->
  update_user_interest v article_id rows = rows.
Proof.
  intros H. unfold update_user_interest. induction rows as [|r rows IH].
  - reflexivity.
  - simpl. rewrite IH by (intros row Hin; apply H; now right).
    destruct (Z.eqb_spec (row_id r) article_id) as [E | E]; [| reflexivity].
    exfalso. apply (H r); [now left | exact E].
Qed.

Lemma recent_feedback_app (now : Clock.t) (rows : list feedback_row)
    (row : feedback_row) :
  recent_feedback now (rows ++ [row]) =
  recent_feedback now rows +
  (if Clock.text_gt (feedback_timestamp row) (Clock.sqlite_now_minus_1_day now)
   then 1 else 0).
Proof.
  unfold recent_feedback, Py.len. rewrite filter_app, length_app. simpl.
  destruct (Clock.text_gt _ _); simpl; lia.
Qed.

(** Feedback for an identity that no stored article has does not raise and
    leaves every stored article and the statistics of the database
    unchanged.  The schema declares [article_id] a foreign key into the
    articles, but no connection turns the enforcement on, so the event is
    appended to the feedback table all the same, and the count of recent
    feedback grows by one whenever the new timestamp compares above the
    day-old threshold. *)
Lemma unknown_feedback_appends_event
    (now : Clock.t) (article_id : Z) (kind : string) (self : t sk) :
  unknown sk article_id self ->
  let after := snd (record_user_feedback sk now article_id kind self) in
  fst (record_user_feedback sk now article_id kind self) = Ok tt /\
  articles after = articles self /\
  get_statistics sk now after = get_statistics sk now self /\
  user_feedback after =
  user_feedback self ++
  [FeedbackRow (next_id (map feedback_id (user_feedback self)))
     article_id kind (Clock.now_isoformat now)] /\
  recent_feedback now (user_feedback after) =
  recent_feedback now (user_feedback self) +
  (if Clock.text_gt (Clock.now_isoformat now)
        (Clock.sqlite_now_minus_1_day now)
   then 1 else 0).
Proof.
  intros Hu.
  destruct (record_user_feedback_tables now article_id kind self)
    as [Hr [Hf Ha]].
  cbv zeta.
  assert (Ha' : articles (snd (record_user_feedback sk now article_id kind self))
                = articles self).
  { rewrite Ha. destruct (interest_of kind); [| reflexivity].
    now apply update_unknown. }
  split; [exact Hr |]. split; [exact Ha' |].
  split; [unfold get_statistics; now rewrite Ha' |].
  split; [exact Hf |].
  rewrite Hf, recent_feedback_app. reflexivity.
Qed.

End TrainFacts.

Section TrainExamples.

Import LearningDatabase TrainSpec TrainCases.

(** C3, as stated, fails.  On a new database fifty articles with
    one-letter texts are recorded and forty-nine of them marked as
    interesting; no model exists yet.  The feedback for the fiftieth makes
    fifty labelled articles and ten or more recent events, so the call
    enters the training method; no text holds a word of two letters, the
    vectorizer raises, and the run that fails this way has already assigned
    a new, unfitted vectorizer to the attribute that was empty before. *)
Lemma failed_fit_replaces_vectorizer :
  let before := before_fiftieth in
  let entered := stored small_kit late_evening 50 "interested" before in
  let trained := snd (_train_model small_kit late_evening entered) in
  let after :=
    snd (record_user_feedback small_kit late_evening 50 "interested" before) in
  classifier_state small_kit before = (None, None, false) /\
  labelled_count small_kit entered = 50 /\
  after =
  with_logged small_kit (logged trained ++ [Log INFO "Recorded feedback"])
    trained /\
  ~ failure_keeps_state small_kit late_evening entered /\
  classifier_state small_kit after = (Some Unfitted, None, false) /\
  In (Log ERROR "Error training model") (logged after).
Proof.
  cbv zeta.
  split; [vm_compute; reflexivity |]. split; [vm_compute; reflexivity |].
  split; [vm_compute; reflexivity |].
  split; [| split; [vm_compute; reflexivity | vm_compute; tauto]].
  intros H.
  assert (Hfail :
    labelled_count small_kit
      (stored small_kit late_evening 50 "interested" before_fiftieth) < 50 \/
    exists e,
      fit_and_evaluate small_kit
        (training_texts small_kit
           (stored small_kit late_evening 50 "interested" before_fiftieth))
        (training_labels small_kit
           (stored small_kit late_evening 50 "interested" before_fiftieth))
      = Raise e).
  { right. exists ValueError. vm_compute. reflexivity. }
  specialize (H Hfail). vm_compute in H. discriminate.
Qed.

(** C7 at a concrete input.  Nine feedback events of the last hour are
    stored for article 1; feedback arrives for the identity 99, which no
    article has.  No article changes, but the event is stored, the count of
    recent feedback goes from 9 to 10, and the training method is entered. *)
Theorem unknown_feedback_counts_towards_retraining :
  let after :=
    snd (record_user_feedback small_kit late_evening 99 "interested" recent_db) in
  map row_id (articles recent_db) = [1] /\
  fst (record_user_feedback small_kit late_evening 99 "interested" recent_db)
    = Ok tt /\
  articles after = articles recent_db /\
  get_statistics small_kit late_evening after =
  get_statistics small_kit late_evening recent_db /\
  map article_id (user_feedback after) = repeat 1 9 ++ [99] /\
  recent_feedback late_evening (user_feedback recent_db) = 9 /\
  recent_feedback late_evening (user_feedback after) = 10 /\
  logged after =
  [Log WARNING "Not enough data for training"; Log INFO "Recorded feedback"].
Proof. vm_compute. repeat split. Qed.

(** C4 at a concrete input.  Nine feedback events written 46 hours and a
    half before the tenth: one event lies within the last 24 hours, yet
    every stored timestamp compares above the threshold text, the retrain
    check counts ten and the training method is entered (it logs that the
    labelled articles are too few). *)
Theorem retrain_check_counts_older_feedback :
  let after :=
    snd (record_user_feedback small_kit late_evening 1 "clicked" stale_db) in
  within_last_day (Clock.local_seconds late_evening)
    (repeat stale_instant 9 ++ [Clock.local_seconds late_evening]) = 1 /\
  map feedback_timestamp (user_feedback after) =
  repeat "2026-11-02T00:30:00"%string 9 ++ ["2026-11-03T23:00:00"%string] /\
  Clock.sqlite_now_minus_1_day late_evening = "2026-11-02 23:00:00"%string /\
  recent_feedback late_evening (user_feedback after) = 10 /\
  fst (_should_retrain small_kit late_evening after) = Ok true /\
  logged after =
  [Log WARNING "Not enough data for training"; Log INFO "Recorded feedback"].
Proof. vm_compute. repeat split. Qed.

End TrainExamples.

(** ** The scheduler *)

Section SchedulerFacts.

Import Scheduler SchedSpec.

(** The two sums of [_schedule_next_scan], against their bounds. *)
Lemma timedelta_add_spec (last interval : Z) :
  (schedulable last interval ->
   bind (Datetime.timedelta interval) (Datetime.add last) = Ok (last + interval)) /\
  (~ schedulable last interval ->
   bind (Datetime.timedelta interval) (Datetime.add last) = Raise OverflowError).
Proof.
  unfold schedulable, Datetime.timedelta, Datetime.add,
    Datetime.min_seconds, Datetime.max_seconds.
  destruct (Z.leb_spec (-999999999) (interval / 86400));
    destruct (Z.leb_spec (interval / 86400) 999999999); cbn [andb bind];
    try (split; [lia | reflexivity]).
  destruct (Z.leb_spec (-62135596800) (last + interval));
    destruct (Z.leb_spec (last + interval) 253402300799); cbn [andb];
    split; try reflexivity; lia.
Qed.

Lemma schedule_from_last (now last : Z) (s : t) :
  last_scan s = Some last ->
  (schedulable last (scan_interval s) ->
   _schedule_next_scan now s =
   Ok (with_next_scan (Some (last + scan_interval s)) s)) /\
  (~ schedulable last (scan_interval s) ->
   _schedule_next_scan now s = Raise OverflowError).
Proof.
  intros Hl. unfold _schedule_next_scan. rewrite Hl.
  destruct (timedelta_add_spec last (scan_interval s)) as [Hok Hraise].
  unfold bind in *. split; intros H.
  - specialize (Hok H).
    destruct (Datetime.timedelta (scan_interval s)) as [delta | e];
      [| discriminate].
    now rewrite Hok.
  - specialize (Hraise H).
    destruct (Datetime.timedelta (scan_interval s)) as [delta | e];
      [now rewrite Hraise | now injection Hraise as ->].
Qed.

Lemma schedule_first (now : Z) (s : t) :
  last_scan s = None ->
  _schedule_next_scan now s = Ok (with_next_scan (Some (now + 60)) s).
Proof. intros Hl. unfold _schedule_next_scan. now rewrite Hl. Qed.

(** [_schedule_next_scan] assigns a next scan time, or raises and assigns
    nothing; it can raise only when a scan has completed. *)
Lemma rescheduled (now : Z) (s : t) :
  let s' := catch (_schedule_next_scan now s) (fun _ => s) in
  (s' = s /\ last_scan s <> None) \/
  exists next, s' = with_next_scan (Some next) s.
Proof.
  cbv zeta. unfold _schedule_next_scan.
  destruct (last_scan s) as [last |]; [| right; now eexists].
  destruct (Datetime.timedelta (scan_interval s)) as [delta | e]; cbn [bind];
    [| left; split; [reflexivity | discriminate]].
  destruct (Datetime.add last delta) as [next | e]; cbn [bind catch];
    [right; now eexists | left; split; [reflexivity | discriminate]].
Qed.

Lemma after_schedule (now : Z) (s : t) :
  after (schedule_and_return now s) =
  catch (_schedule_next_scan now s) (fun _ => s).
Proof.
  unfold schedule_and_return. now destruct (_schedule_next_scan now s).
Qed.

Lemma schedule_counters (now : Z) (s : t) :
  same_counters s (catch (_schedule_next_scan now s) (fun _ => s)).
Proof.
  destruct (rescheduled now s) as [[-> _] | [next ->]]; now repeat split.
Qed.

Lemma schedule_fields (now : Z) (s : t) :
  let s' := catch (_schedule_next_scan now s) (fun _ => s) in
  config s' = config s /\ config_file s' = config_file s /\
  scan_interval s' = scan_interval s /\
  enabled s' = enabled s /\ running s' = running s /\
  last_scan s' = last_scan s.
Proof.
  cbv zeta.
  destruct (rescheduled now s) as [[-> _] | [next ->]]; now repeat split.
Qed.

Lemma step_counters (s : t) (e : event) :
  (fires s e = true -> one_more_scan s (step s e)) /\
  (fires s e = false -> same_counters s (step s e)).
Proof.
  destruct e as [now | | | now | now interval write | now | current_time run];
    cbn [fires step].
  1-6: split; [discriminate | intros _].
  - unfold start. destruct (running s); [now repeat split |].
    rewrite after_schedule.
    apply (schedule_counters now (with_flags true true s)).
  - now repeat split.
  - now repeat split.
  - unfold resume. destruct (running s); cbn [negb after]; [| now repeat split].
    rewrite after_schedule.
    apply (schedule_counters now (with_flags true true s)).
  - unfold set_scan_interval. destruct (interval <? 60); cbn [after];
      [now repeat split |].
    destruct write as [u | e0]; cbn [after]; [| now repeat split].
    destruct (running (with_config_saved (with_interval interval s)));
      [| now repeat split].
    rewrite after_schedule.
    apply (schedule_counters now (with_config_saved (with_interval interval s))).
  - unfold trigger_scan_now. destruct (running s); now repeat split.
  - unfold _run_scheduler_pass.
    destruct (running s); cbn [andb]; [| split; [discriminate | now repeat split]].
    destruct (scan_due current_time s); split; try discriminate; intros _.
    + destruct (schedule_counters (finished_at run) (_perform_scan run s))
        as [Ht [Hs Hf]].
      unfold one_more_scan. cbv zeta. rewrite Ht, Hs, Hf. unfold _perform_scan.
      destruct (outcome run); cbn; split; auto.
    + now repeat split.
Qed.

Lemma step_consistent (s : t) (e : event) :
  counters_consistent s -> counters_consistent (step s e).
Proof.
  intros [Ht [Hs Hf]]. destruct (step_counters s e) as [Hfire Hquiet].
  destruct (fires s e).
  - destruct (Hfire eq_refl) as [Ht' [[Hs' Hf'] | [Hs' Hf']]];
      unfold counters_consistent; lia.
  - destruct (Hquiet eq_refl) as [Ht' [Hs' Hf']].
    unfold counters_consistent; lia.
Qed.

Lemma execute_consistent (events : list event) : forall s,
  counters_consistent s -> counters_consistent (execute s events).
Proof.
  induction events as [|e events IH]; intros s H; [exact H |].
  apply IH. now apply step_consistent.
Qed.

(** Pausing changes nothing in what a pass of the loop does: the pass
    reads [running] and [next_scan] only. *)
Lemma pause_leaves_passes (current_time : Z) (run : scan_run) (s : t) :
  let paused := _run_scheduler_pass current_time run (pause s) in
  let plain := _run_scheduler_pass current_time run s in
  fires (pause s) (LoopPass current_time run) =
  fires s (LoopPass current_time run) /\
  same_counters plain paused /\
  last_scan paused = last_scan plain /\
  next_scan paused = next_scan plain.
Proof.
  cbv zeta. unfold _run_scheduler_pass, pause. cbn [fires with_flags running].
  unfold scan_due. cbn [with_flags next_scan].
  destruct (running s); [| now repeat split].
  destruct (next_scan s) as [next |]; [| now repeat split].
  destruct (current_time >=? next); [| now repeat split].
  unfold _schedule_next_scan, _perform_scan.
  destruct (outcome run); cbn; destruct (last_scan s); cbn;
    repeat match goal with
           | |- context [Datetime.timedelta ?i] =>
               destruct (Datetime.timedelta i); cbn
           | |- context [Datetime.add ?a ?b] =>
               destruct (Datetime.add a b); cbn
           end;
    now repeat split.
Qed.

(** A scan that fails after an earlier one succeeded: both counters go up,
    the loop goes on, and the next scan time is computed from the last
    successful scan, as it was before the failure. *)
Lemma failed_pass_keeps_schedule
    (current_time : Z) (run : scan_run) (s : t) (last : Z) (e : exn) :
  running s = true ->
  scan_due current_time s = true ->
  outcome run = Failed e ->
  last_scan s = Some last ->
  schedulable last (scan_interval s) ->
  let s' := _run_scheduler_pass current_time run s in
  total_scans s' = total_scans s + 1 /\
  failed_scans s' = failed_scans s + 1 /\
  successful_scans s' = successful_scans s /\
  running s' = true /\
  next_scan s' = Some (last + scan_interval s).
Proof.
  intros Hr Hd Ho Hl Hs. cbv zeta. unfold _run_scheduler_pass.
  rewrite Hr, Hd.
  assert (Hl' : last_scan (_perform_scan run s) = Some last)
    by (unfold _perform_scan; now rewrite Ho).
  assert (Hi : scan_interval (_perform_scan run s) = scan_interval s)
    by (unfold _perform_scan; now rewrite Ho).
  destruct (schedule_from_last (finished_at run) last _ Hl') as [Hok _].
  rewrite Hi in Hok. rewrite (Hok Hs). unfold _perform_scan. rewrite Ho.
  cbn. now repeat split.
Qed.

(** C10.  In every state the scheduler reaches from its construction by
    method calls and passes of its loop, [total_scans] is the sum of
    [successful_scans] and [failed_scans]; a pass that starts a scan adds
    one to [total_scans] and to exactly one of the other two, every other
    step leaves the three as they are; and the status query does not divide
    by zero and reports a success rate between 0 and 1. *)
Theorem scan_counters_invariant (config : Config.t) (events : list event) :
  let s := execute (init config) events in
  total_scans s = successful_scans s + failed_scans s /\
  (forall e,
     (fires s e = true -> one_more_scan s (step s e)) /\
     (fires s e = false -> same_counters s (step s e))) /\
  exists st,
    get_status s = Ok st /\
    (success_rate st ==
       inject_Z (successful_scans s) / inject_Z (Z.max (total_scans s) 1))%Q /\
    (0 <= success_rate st <= 1)%Q.
Proof.
  cbv zeta.
  assert (H : counters_consistent (execute (init config) events)).
  { apply execute_consistent. unfold counters_consistent. cbn. lia. }
  set (s := execute (init config) events) in *.
  destruct H as [Ht [Hs Hf]].
  split; [exact Ht |]. split; [intros e; apply step_counters |].
  unfold get_status. rewrite truediv_ok by lia. cbn [bind].
  eexists. split; [reflexivity |]. cbn [success_rate].
  split; [reflexivity |].
  apply ratio_unit_interval; lia.
Qed.

(** C8, as stated, fails.  After a first scan that ended at 1075 the
    scheduler is running; [set_scan_interval] is called with 10^12 seconds,
    which is 60 or more.  The interval is stored, but the sum of the last
    scan time and the interval lies beyond the year 9999: the call raises
    [OverflowError] and the next scan time stays 4675. *)
Lemma huge_interval_is_not_scheduled :
  let s := after_first_scan in
  let call := set_scan_interval 2000 1000000000000 (Ok tt) s in
  60 <= 1000000000000 /\
  running s = true /\
  last_scan s = Some 1075 /\
  call = Raised OverflowError (after call) /\
  scan_interval (after call) = 1000000000000 /\
  next_scan (after call) = Some 4675 /\
  ~ rescheduled_from_last 1000000000000 s (after call).
Proof.
  cbv zeta. split; [lia |]. do 5 (split; [vm_compute; reflexivity |]).
  intros H. specialize (H 1075 eq_refl). vm_compute in H. discriminate.
Qed.

(** C8, amended.  [set_scan_interval] with less than 60 seconds raises
    [ValueError] and leaves the scheduler as it was.  With 60 seconds or
    more it stores the interval in the scheduler and in the configuration
    in memory, and nothing but the configuration file and the next scan
    time can change besides.  When writing the configuration file raises,
    the call raises, the file is not known to hold a configuration any
    more, and the next scan time is as it was.  Otherwise the file holds
    the new configuration, and: a scheduler that
    is not running keeps its next scan time; a running one that has not
    completed a scan gets now plus 60 seconds; a running one that has
    completed a scan gets the last scan time plus the new interval when
    that sum is a date up to the year 9999, and else the call raises
    [OverflowError] with the next scan time as it was. *)
Theorem set_scan_interval_cases
    (now interval : Z) (write : result unit) (s : t) :
  let call := set_scan_interval now interval write s in
  let s' := after call in
  step s (SetScanInterval now interval write) = s' /\
  (interval < 60 -> call = Raised ValueError s) /\
  (60 <= interval ->
   scan_interval s' = interval /\
   config s' = Config.set_scan_interval (config s) interval /\
   Config.scan_interval (config s') = interval /\
   last_scan s' = last_scan s /\
   running s' = running s /\ enabled s' = enabled s /\
   same_counters s s' /\
   (forall e,
      write = Raise e ->
      call = Raised e s' /\
      config_file s' = None /\ next_scan s' = next_scan s) /\
   (forall u,
      write = Ok u ->
      config_file s' = Some (config s') /\
      (running s = false -> call = Returned s' /\ next_scan s' = next_scan s) /\
      (running s = true -> last_scan s = None ->
       call = Returned s' /\ next_scan s' = Some (now + 60)) /\
      (forall last,
         running s = true -> last_scan s = Some last ->
         (schedulable last interval ->
          call = Returned s' /\ next_scan s' = Some (last + interval)) /\
         (~ schedulable last interval ->
          call = Raised OverflowError s' /\ next_scan s' = next_scan s)))).
Proof.
  cbv zeta. split; [reflexivity |]. unfold set_scan_interval.
  split; intros H.
  - destruct (Z.ltb_spec interval 60); [reflexivity | lia].
  - destruct (Z.ltb_spec interval 60); [lia |].
    set (s1 := with_interval interval s).
    set (s2 := with_config_saved s1).
    assert (Hd : forall last,
               schedulable last interval \/ ~ schedulable last interval)
      by (intros last; unfold schedulable; lia).
    destruct write as [u | e0]; cbn [after].
    + change (running s2) with (running s).
      destruct (running s) eqn:R.
      * unfold schedule_and_return.
        destruct (last_scan s) as [last |] eqn:L.
        -- assert (L2 : last_scan s2 = Some last) by exact L.
           destruct (schedule_from_last now last s2 L2) as [Hok Hraise].
           change (scan_interval s2) with interval in Hok, Hraise.
           destruct (Hd last) as [Hs | Hs];
             [rewrite (Hok Hs) | rewrite (Hraise Hs)]; clear Hok Hraise;
             subst s2 s1; cbn; rewrite ?R, ?L;
             repeat split; intros; repeat split; intros;
             try reflexivity; try congruence; try contradiction;
             replace last0 with last in * by congruence;
             try reflexivity; try contradiction.
        -- rewrite (schedule_first now s2 L).
           subst s2 s1; cbn; rewrite ?R, ?L;
             repeat split; intros; repeat split; intros;
             try reflexivity; try congruence.
      * subst s2 s1; cbn; rewrite ?R;
          repeat split; intros; repeat split; intros;
          try reflexivity; try congruence.
    + subst s1; cbn;
        repeat split; intros; repeat split; intros;
        try reflexivity; try congruence.
Qed.

(** C5 at a concrete input.  The scheduler is started at 1000 and paused;
    the pass of the loop at 1060, when the first scan is due, starts the
    scan all the same and counts it. *)
Theorem paused_scheduler_still_scans :
  let s := paused_before_first_scan in
  let pass := LoopPass 1060 (ScanRun (Completed 3) 1075) in
  is_paused s = true /\
  running s = true /\
  next_scan s = Some 1060 /\
  fires s pass = true /\
  total_scans (step s pass) = 1 /\
  successful_scans (step s pass) = 1 /\
  last_scan (step s pass) = Some 1075.
Proof. vm_compute. repeat split. Qed.

(** C6 at a concrete input.  After a first scan that ended at 1075 the
    next one is due at 4675; it fails at 4690.  Both counters go up and the
    loop goes on, but the next scan time is again 4675, before the failure,
    so the pass one minute later starts another scan instead of waiting for
    the interval of 3600 seconds. *)
Theorem failed_scan_reschedules_in_the_past :
  let s := after_first_scan in
  let s' := step s failing_pass in
  scan_interval s = 3600 /\
  next_scan s = Some 4675 /\
  fires s failing_pass = true /\
  total_scans s' = total_scans s + 1 /\
  failed_scans s' = failed_scans s + 1 /\
  running s' = true /\
  next_scan s' = Some 4675 /\
  4675 < 4690 /\
  fires s' (LoopPass 4740 (ScanRun (Completed 3) 4750)) = true.
Proof. vm_compute. repeat split. Qed.

End SchedulerFacts.

(** ** The scheduler: further properties *)

Section SchedulerMore.

Import Scheduler SchedSpec.

Lemma execute_app (s : t) (events more : list event) :
  execute s (events ++ more) = execute (execute s events) more.
Proof. unfold execute. apply fold_left_app. Qed.

(** An invariant of [step] holds after every execution. *)
Lemma execute_invariant (P : t -> Prop) :
  (forall s e, P s -> P (step s e)) ->
  forall events s, P s -> P (execute s events).
Proof.
  intros Hstep. induction events as [|e events IH]; intros s H; [exact H |].
  apply IH. now apply Hstep.
Qed.

(** X1.  In every state the scheduler reaches, its interval is the one its
    configuration holds, it is the configured one or at least 60 seconds,
    and the rest of the configuration is as it was given. *)
Theorem interval_follows_configuration
    (config0 : Config.t) (events : list event) :
  let s := execute (init config0) events in
  scan_interval s = Config.scan_interval (config s) /\
  (scan_interval s = Config.scan_interval config0 \/ 60 <= scan_interval s) /\
  Config.keywords (config s) = Config.keywords config0 /\
  Config.blacklist (config s) = Config.blacklist config0 /\
  Config.min_content_length (config s) = Config.min_content_length config0.
Proof.
  cbv zeta.
  apply (execute_invariant
           (fun s =>
              scan_interval s = Config.scan_interval (config s) /\
              (scan_interval s = Config.scan_interval config0 \/
               60 <= scan_interval s) /\
              Config.keywords (config s) = Config.keywords config0 /\
              Config.blacklist (config s) = Config.blacklist config0 /\
              Config.min_content_length (config s) =
              Config.min_content_length config0)).
  - intros s e (H1 & H2 & H3 & H4 & H5).
    destruct e as [now | | | now | now interval write | now | current_time run];
      cbn [step].
    + unfold start. destruct (running s); [now repeat split |].
      rewrite after_schedule.
      destruct (schedule_fields now (with_flags true true s))
        as (Hc & _ & Hi & _). cbv zeta in Hc, Hi. rewrite Hc, Hi.
      now repeat split.
    + now repeat split.
    + now repeat split.
    + unfold resume. destruct (running s); cbn [negb after]; [| now repeat split].
      rewrite after_schedule.
      destruct (schedule_fields now (with_flags true true s))
        as (Hc & _ & Hi & _). cbv zeta in Hc, Hi. rewrite Hc, Hi.
      now repeat split.
    + unfold set_scan_interval.
      destruct (Z.ltb_spec interval 60); cbn [after]; [now repeat split |].
      assert (Hgoal :
        let s1 := with_interval interval s in
        scan_interval s1 = Config.scan_interval (config s1) /\
        (scan_interval s1 = Config.scan_interval config0 \/
         60 <= scan_interval s1) /\
        Config.keywords (config s1) = Config.keywords config0 /\
        Config.blacklist (config s1) = Config.blacklist config0 /\
        Config.min_content_length (config s1) =
        Config.min_content_length config0).
      { cbn. repeat split; auto. }
      cbv zeta in Hgoal.
      destruct write as [u | e0]; cbn [after]; [| exact Hgoal].
      destruct (running (with_config_saved (with_interval interval s)));
        [| exact Hgoal].
      rewrite after_schedule.
      destruct (schedule_fields now
                  (with_config_saved (with_interval interval s)))
        as (Hc & _ & Hi & _). cbv zeta in Hc, Hi. rewrite Hc, Hi. exact Hgoal.
    + unfold trigger_scan_now. destruct (running s); now repeat split.
    + unfold _run_scheduler_pass. destruct (running s); [| now repeat split].
      destruct (scan_due current_time s); [| now repeat split].
      destruct (schedule_fields (finished_at run) (_perform_scan run s))
        as (Hc & _ & Hi & _). cbv zeta in Hc, Hi. rewrite Hc, Hi.
      unfold _perform_scan. destruct (outcome run); now repeat split.
  - cbn. repeat split. now left.
Qed.

(** What every reachable state satisfies: a running scheduler, and one
    that has completed a scan, has a next scan time. *)
Lemma scheduled_invariant (config0 : Config.t) (events : list event) :
  let s := execute (init config0) events in
  (running s = false \/ exists next, next_scan s = Some next) /\
  (last_scan s = None <-> successful_scans s = 0) /\
  0 <= successful_scans s /\
  (last_scan s <> None -> exists next, next_scan s = Some next).
Proof.
  cbv zeta.
  apply (execute_invariant
           (fun s =>
              (running s = false \/ exists next, next_scan s = Some next) /\
              (last_scan s = None <-> successful_scans s = 0) /\
              0 <= successful_scans s /\
              (last_scan s <> None -> exists next, next_scan s = Some next))).
  - assert (Hsched : forall now s,
              (last_scan s = None <-> successful_scans s = 0) /\
              0 <= successful_scans s /\
              (last_scan s <> None -> exists next, next_scan s = Some next) ->
              let s' := catch (_schedule_next_scan now s) (fun _ => s) in
              (running s' = false \/ exists next, next_scan s' = Some next) /\
              (last_scan s' = None <-> successful_scans s' = 0) /\
              0 <= successful_scans s' /\
              (last_scan s' <> None -> exists next, next_scan s' = Some next)).
    { intros now s (HB & HC & HD). cbv zeta.
      destruct (rescheduled now s) as [[-> Hl] | [next ->]]; cbv zeta.
      - split; [right; now apply HD |]. split; [exact HB |]. now split.
      - cbn. split; [right; now eexists |]. split; [exact HB |].
        split; [exact HC |]. intros _. now eexists. }
    intros s e H.
    destruct e as [now | | | now | now interval write | now | current_time run];
      cbn [step].
    + unfold start. destruct (running s) eqn:R; cbn [after];
        [now rewrite R |].
      rewrite after_schedule. apply Hsched. exact (proj2 H).
    + split; [now left | exact (proj2 H)].
    + exact H.
    + unfold resume. destruct (running s) eqn:R; cbn [negb after];
        [| now rewrite R].
      rewrite after_schedule. apply Hsched. exact (proj2 H).
    + unfold set_scan_interval.
      destruct (Z.ltb_spec interval 60); cbn [after]; [exact H |].
      destruct write as [u | e0]; cbn [after]; [| exact H].
      change (running (with_config_saved (with_interval interval s)))
        with (running s).
      destruct (running s) eqn:R; cbn [after].
      * rewrite after_schedule. apply Hsched. exact (proj2 H).
      * split; [left; exact R | exact (proj2 H)].
    + unfold trigger_scan_now. destruct (running s) eqn:R; cbn [negb catch];
        [| now rewrite R].
      split; [right; now eexists |]. destruct H as (_ & HB & HC & _).
      split; [exact HB |]. split; [exact HC |]. intros _. now eexists.
    + unfold _run_scheduler_pass. destruct (running s) eqn:R;
        [| now rewrite R].
      destruct (scan_due current_time s) eqn:D; [| now rewrite R].
      apply Hsched. destruct H as (_ & HB & HC & _).
      assert (HN : exists next, next_scan s = Some next).
      { unfold scan_due in D. destruct (next_scan s) as [next |];
          [now exists next | discriminate]. }
      unfold _perform_scan. destruct (outcome run); cbn.
      * split; [split; [discriminate | lia] |]. split; [lia |]. now intros _.
      * split; [exact HB |]. split; [exact HC |]. now intros _.
  - cbn. split; [now left |]. split; [now split |]. split; [lia |].
    intros H. now contradiction H.
Qed.

(** X2.  In every state the scheduler reaches, a running scheduler has a
    next scan time, and a scan time is recorded as the last one exactly when
    some scan has succeeded. *)
Theorem running_scheduler_is_scheduled
    (config0 : Config.t) (events : list event) :
  let s := execute (init config0) events in
  (running s = false \/ exists next, next_scan s = Some next) /\
  (last_scan s = None <-> successful_scans s = 0) /\
  0 <= successful_scans s.
Proof.
  cbv zeta.
  destruct (scheduled_invariant config0 events) as (HA & HB & HC & _).
  split; [exact HA |]. split; [exact HB | exact HC].
Qed.

(** X3.  The three counters never go down, whatever is called and
    whatever the scans do. *)
Theorem counters_never_decrease (s : t) (events : list event) :
  total_scans s <= total_scans (execute s events) /\
  successful_scans s <= successful_scans (execute s events) /\
  failed_scans s <= failed_scans (execute s events).
Proof.
  revert s. induction events as [|e events IH]; intros s; [cbn; lia |].
  cbn [execute fold_left]. fold (execute (step s e) events).
  specialize (IH (step s e)).
  destruct (step_counters s e) as [Hfire Hquiet].
  destruct (fires s e).
  - destruct (Hfire eq_refl) as [Ht [[Hs Hf] | [Hs Hf]]]; lia.
  - destruct (Hquiet eq_refl) as [Ht [Hs Hf]]. lia.
Qed.

(** X4.  [trigger_scan_now] raises on a stopped scheduler; on a running
    one it makes the scan due, so that the next pass of the loop, at any
    time from then on, starts a scan. *)
Theorem trigger_scan_now_fires_next_pass
    (now current_time : Z) (run : scan_run) (s : t) :
  (running s = false -> trigger_scan_now now s = Raise RuntimeError) /\
  (running s = true ->
   exists s',
     trigger_scan_now now s = Ok s' /\
     next_scan s' = Some now /\
     same_counters s s' /\
     (now <= current_time ->
      fires s' (LoopPass current_time run) = true /\
      total_scans (step s' (LoopPass current_time run)) = total_scans s + 1)).
Proof.
  unfold trigger_scan_now. split; intros R; rewrite R; cbn [negb];
    [reflexivity |].
  eexists. split; [reflexivity |]. split; [reflexivity |].
  split; [now repeat split |]. intros Hle.
  assert (Hdue : scan_due current_time (with_next_scan (Some now) s) = true).
  { unfold scan_due. cbn. now apply Z.geb_le. }
  split.
  - cbn [fires]. cbn [with_next_scan running]. now rewrite R, Hdue.
  - cbn [step]. unfold _run_scheduler_pass.
    cbn [with_next_scan running]. rewrite R, Hdue.
    destruct (schedule_counters (finished_at run)
                (_perform_scan run (with_next_scan (Some now) s)))
      as [Ht _]. cbv zeta. rewrite Ht.
    unfold _perform_scan. destruct (outcome run); reflexivity.
Qed.

(** X5.  The time until the next scan is absent exactly when no scan is
    scheduled; otherwise it is never negative, it is zero exactly when a
    pass of the loop at that moment would find the scan due, and before
    that it is the distance to the next scan time. *)
Theorem time_until_next_scan_spec (now : Z) (s : t) :
  (next_scan s = None ->
   get_time_until_next_scan now s = None /\ scan_due now s = false) /\
  (forall next,
     next_scan s = Some next ->
     exists d,
       get_time_until_next_scan now s = Some d /\
       0 <= d /\
       (d = 0 <-> scan_due now s = true) /\
       (scan_due now s = false -> d = next - now)).
Proof.
  unfold get_time_until_next_scan, scan_due. split.
  - intros ->. now split.
  - intros next ->. eexists. split; [reflexivity |].
    destruct (Z.geb_spec now next); repeat split; intros; try lia;
      try discriminate.
Qed.

(** X6.  A scan that completes is recorded as the last scan at the moment
    it finished and counts as one success.  The next one is scheduled one
    interval after that moment when that sum is a date up to the year 9999;
    when it is not, the loop catches the [OverflowError] and the next scan
    time stays as it was, in the past. *)
Theorem completed_pass_schedules_next
    (current_time : Z) (run : scan_run) (s : t) (found : Z) :
  running s = true ->
  scan_due current_time s = true ->
  outcome run = Completed found ->
  let s' := _run_scheduler_pass current_time run s in
  last_scan s' = Some (finished_at run) /\
  (schedulable (finished_at run) (scan_interval s) ->
   next_scan s' = Some (finished_at run + scan_interval s)) /\
  (~ schedulable (finished_at run) (scan_interval s) ->
   next_scan s' = next_scan s /\
   fires s' (LoopPass (current_time + 60) run) = true) /\
  total_scans s' = total_scans s + 1 /\
  successful_scans s' = successful_scans s + 1 /\
  failed_scans s' = failed_scans s /\
  running s' = true.
Proof.
  intros Hr Hd Ho. cbv zeta. unfold _run_scheduler_pass.
  rewrite Hr, Hd.
  set (s1 := _perform_scan run s).
  assert (Hl : last_scan s1 = Some (finished_at run))
    by (unfold s1, _perform_scan; now rewrite Ho).
  assert (Hi : scan_interval s1 = scan_interval s)
    by (unfold s1, _perform_scan; now rewrite Ho).
  destruct (schedule_from_last (finished_at run) (finished_at run) s1 Hl)
    as [Hok Hraise].
  rewrite Hi in Hok, Hraise.
  assert (Hdec : schedulable (finished_at run) (scan_interval s) \/
                 ~ schedulable (finished_at run) (scan_interval s))
    by (unfold schedulable; lia).
  destruct Hdec as [Hs | Hs].
  - rewrite (Hok Hs). subst s1. unfold _perform_scan. rewrite Ho. cbn.
    split; [reflexivity |]. split; [reflexivity |].
    split; [intros Hn; contradiction | now repeat split].
  - rewrite (Hraise Hs). subst s1. unfold _perform_scan. rewrite Ho. cbn.
    split; [reflexivity |]. split; [intros Hy; contradiction |].
    split; [| now repeat split].
    intros _. split; [reflexivity |].
    rewrite Hr. unfold scan_due in *. cbn.
    destruct (next_scan s) as [next |]; [| discriminate].
    apply Z.geb_le in Hd. apply Z.geb_le. lia.
Qed.

Lemma completed_pass_schedules_next_witness :
  let s := paused_before_first_scan in
  let run := ScanRun (Completed 3) 1075 in
  last_scan (_run_scheduler_pass 1060 run s) = Some 1075 /\
  next_scan (_run_scheduler_pass 1060 run s) = Some (1075 + 3600).
Proof.
  cbv zeta.
  refine ((fun H => conj (proj1 H) (proj1 (proj2 H) _))
    (completed_pass_schedules_next 1060 (ScanRun (Completed 3) 1075)
       paused_before_first_scan 3 _ _ _)); try reflexivity.
  unfold schedulable. cbn. lia.
Defined.

(** X7.  A stopped scheduler is inert: passes of the loop, [resume] and
    [trigger_scan_now] leave it exactly as it is, the latter two by raising,
    and it does not count as paused. *)
Theorem stopped_scheduler_is_inert (s : t) (now : Z) (passes : list (Z * scan_run)) :
  let stopped := stop s in
  execute stopped (map (fun p => LoopPass (fst p) (snd p)) passes) = stopped /\
  resume now stopped = Raised RuntimeError stopped /\
  trigger_scan_now now stopped = Raise RuntimeError /\
  step stopped (Resume now) = stopped /\
  step stopped (TriggerScanNow now) = stopped /\
  is_paused stopped = false.
Proof.
  cbv zeta. split; [| now repeat split; cbn; rewrite ?andb_false_r].
  induction passes as [|p passes IH]; [reflexivity |].
  cbn [map execute fold_left]. exact IH.
Qed.

(** X8.  Starting a scheduler that is already running changes nothing;
    starting one that is not makes it running and not paused and, when no
    scan has completed yet, schedules the first scan one minute later. *)
Theorem start_is_guarded (now now' : Z) (s : t) :
  let started := after (start now s) in
  start now' started = Returned started /\
  running started = true /\
  (running s = true -> start now s = Returned s) /\
  (running s = false ->
   enabled started = true /\
   is_paused started = false /\
   same_counters s started /\
   (last_scan s = None ->
    start now s = Returned started /\ next_scan started = Some (now + 60))).
Proof.
  cbv zeta.
  assert (Hrun : running (after (start now s)) = true).
  { unfold start. destruct (running s) eqn:R; [exact R |].
    rewrite after_schedule.
    now destruct (schedule_fields now (with_flags true true s))
      as (_ & _ & _ & _ & Hr & _). }
  split; [| split; [exact Hrun |]].
  - unfold start at 1. now rewrite Hrun.
  - split.
    + intros R. unfold start. now rewrite R.
    + intros R. unfold start. rewrite R. rewrite after_schedule.
      destruct (schedule_fields now (with_flags true true s))
        as (_ & _ & _ & He & Hr & _). cbv zeta in He, Hr.
      split; [exact He |]. split; [unfold is_paused; now rewrite He |].
      split; [apply (schedule_counters now (with_flags true true s)) |].
      intros Hl. unfold schedule_and_return.
      rewrite (schedule_first now (with_flags true true s) Hl). now split.
Qed.

(** X9.  Pausing keeps everything but the enabled flag, pausing twice is
    pausing once, and [resume] after [pause] does what [resume] alone does
    on a running scheduler: it raises [RuntimeError] on a stopped one; on a
    running one the scheduler is enabled again, and the next scan is
    recomputed from the last one when that sum is a date up to the year
    9999, while otherwise the call raises [OverflowError], the scheduler
    enabled and its next scan time as it was. *)
Theorem pause_then_resume (now : Z) (s : t) :
  let s' := after (resume now s) in
  pause (pause s) = pause s /\
  same_counters s (pause s) /\
  next_scan (pause s) = next_scan s /\
  is_paused (pause s) = running s /\
  (running s = false -> resume now s = Raised RuntimeError s) /\
  (running s = true ->
   resume now (pause s) = resume now s /\
   enabled s' = true /\ is_paused s' = false /\
   same_counters s s' /\
   (last_scan s = None ->
    resume now s = Returned s' /\ next_scan s' = Some (now + 60)) /\
   forall last,
     last_scan s = Some last ->
     (schedulable last (scan_interval s) ->
      resume now s = Returned s' /\
      next_scan s' = Some (last + scan_interval s)) /\
     (~ schedulable last (scan_interval s) ->
      resume now s = Raised OverflowError s' /\
      next_scan s' = next_scan s)).
Proof.
  cbv zeta.
  split; [reflexivity |]. split; [now repeat split |].
  split; [reflexivity |]. split; [reflexivity |].
  split; [intros R; unfold resume; now rewrite R |].
  intros R. split; [unfold resume, pause; cbn; now rewrite R |].
  unfold resume. rewrite R. cbn [negb]. rewrite after_schedule.
  destruct (schedule_fields now (with_flags true true s))
    as (_ & _ & _ & He & Hr & _). cbv zeta in He, Hr.
  split; [exact He |]. split; [unfold is_paused; now rewrite He |].
  split; [apply (schedule_counters now (with_flags true true s)) |].
  unfold schedule_and_return. split.
  - intros Hl. rewrite (schedule_first now (with_flags true true s) Hl).
    now split.
  - intros last Hl.
    destruct (schedule_from_last now last (with_flags true true s) Hl)
      as [Hok Hraise].
    split; intros Hs; [rewrite (Hok Hs) | rewrite (Hraise Hs)]; now split.
Qed.

End SchedulerMore.


(** ** The learning database: further properties *)

Section DatabaseMore.

Import LearningDatabase TrainSpec DbSpec.

Variable sk : sklearn.

Arguments Clock.now_isoformat : simpl never.
Arguments Clock.sqlite_now_minus_1_day : simpl never.

Ltac run_db :=
  unfold _save_model, _record_performance_metric;
  unfold try_except, mbind, get, modify, lift, log, ret; cbn beta iota.

(** *** Recording *)

Lemma record_article_steps (config : Config.t) (a : article) (self : t sk) :
  record_article sk config a self =
  (Ok tt,
   with_logged sk (logged self ++ [Log DEBUG "Recorded article"])
     (with_articles sk
        (articles self ++
         [ArticleRow (next_id (map row_id (articles self)))
            (title a) (cleaned_content a) (image_url a) (link a)
            (source_url a) (scraped_at a)
            (_calculate_relevance_score config a) None
            (_extract_keywords sk a) false])
        self)).
Proof. reflexivity. Qed.

Lemma fold_max_from (a : Z) (l : list Z) :
  fold_right Z.max a l = Z.max a (fold_right Z.max 0 l) \/ a < 0.
Proof.
  destruct (Z.lt_ge_cases a 0) as [H | H]; [now right | left].
  induction l as [|x l IH]; cbn; lia.
Qed.

Lemma max_ids (n : nat) : fold_right Z.max 0 (ids n) = Z.of_nat n.
Proof.
  unfold ids. induction n as [|n IH]; [reflexivity |].
  rewrite seq_S, map_app, fold_right_app. cbn [map fold_right].
  destruct (fold_max_from (Z.max (Z.of_nat (1 + n)) 0)
              (map Z.of_nat (seq 1 n))) as [H | H]; lia.
Qed.

Lemma next_id_ids (n : nat) : next_id (ids n) = Z.of_nat (S n).
Proof. unfold next_id. rewrite max_ids. lia. Qed.

Lemma ids_NoDup (n : nat) : NoDup (ids n).
Proof.
  unfold ids. generalize (seq_NoDup n 1).
  induction (seq 1 n) as [|x l IH]; intros H; cbn [map]; constructor.
  - intros Hin. apply in_map_iff in Hin as [y [Hy Hin]].
    apply Nat2Z.inj in Hy. subst y. now inversion H.
  - apply IH. now inversion H.
Qed.

Lemma ids_S (n : nat) : ids (S n) = ids n ++ [Z.of_nat (S n)].
Proof. unfold ids. now rewrite seq_S, map_app. Qed.

Lemma update_keeps_ids (v article_id : Z) (rows : list article_row) :
  map row_id (update_user_interest v article_id rows) = map row_id rows.
Proof.
  unfold update_user_interest. rewrite map_map. apply map_ext.
  intros r. now destruct (row_id r =? article_id).
Qed.

Lemma update_keeps_rest (v article_id : Z) (rows : list article_row) :
  map (unlabelled) (update_user_interest v article_id rows) =
  map (unlabelled) rows.
Proof.
  unfold update_user_interest. rewrite map_map. apply map_ext.
  intros r. now destruct (row_id r =? article_id).
Qed.

Lemma feedback_articles
    (now : Clock.t) (article_id : Z) (kind : string) (self : t sk) :
  articles (snd (record_user_feedback sk now article_id kind self)) =
  match interest_of kind with
  | Some v => update_user_interest v article_id (articles self)
  | None => articles self
  end.
Proof.
  apply (record_user_feedback_tables sk now article_id kind self).
Qed.

Lemma feedback_table
    (now : Clock.t) (article_id : Z) (kind : string) (self : t sk) :
  user_feedback (snd (record_user_feedback sk now article_id kind self)) =
  user_feedback self ++ [new_feedback_row sk now article_id kind self].
Proof.
  apply (record_user_feedback_tables sk now article_id kind self).
Qed.

Lemma execute_db_invariant (P : t sk -> Prop) :
  (forall s e, P s -> P (step sk s e)) ->
  forall events s, P s -> P (execute sk s events).
Proof.
  intros Hstep. induction events as [|e events IH]; intros s H; [exact H |].
  apply IH. now apply Hstep.
Qed.

(** The identities along an execution that starts from the empty
    database. *)
Lemma executed_ids (events : list event) :
  let s := execute sk (empty sk) events in
  map row_id (articles s) = ids (List.length (articles s)) /\
  map feedback_id (user_feedback s) = ids (List.length (user_feedback s)).
Proof.
  cbv zeta.
  apply (execute_db_invariant
           (fun s =>
              map row_id (articles s) = ids (List.length (articles s)) /\
              map feedback_id (user_feedback s) =
              ids (List.length (user_feedback s)))); [| now split].
  intros s [config a | now article_id kind] [Ha Hf]; cbn [step].
  - rewrite record_article_steps. cbn [snd with_logged with_articles
      articles user_feedback].
    split; [| exact Hf].
    rewrite map_app, length_app, Ha. cbn [map List.length row_id].
    rewrite Nat.add_1_r, ids_S, next_id_ids. reflexivity.
  - rewrite feedback_articles, feedback_table. split.
    + destruct (interest_of kind); [| exact Ha].
      rewrite update_keeps_ids, Ha. f_equal.
      unfold update_user_interest. now rewrite length_map.
    + rewrite map_app, length_app, Hf. cbn [map List.length].
      unfold new_feedback_row. cbn [feedback_id].
      rewrite Hf, Nat.add_1_r, ids_S, next_id_ids. reflexivity.
Qed.

(** X10.  In a database that started empty, the articles carry the
    identities 1, 2, 3, ... in the order they were recorded, and so do the
    feedback events: an identity is never reused and never changes. *)
Theorem identities_are_sequential (events : list event) :
  let s := execute sk (empty sk) events in
  map row_id (articles s) = ids (List.length (articles s)) /\
  map feedback_id (user_feedback s) = ids (List.length (user_feedback s)) /\
  NoDup (map row_id (articles s)) /\
  NoDup (map feedback_id (user_feedback s)).
Proof.
  cbv zeta. destruct (executed_ids events) as [Ha Hf]. cbv zeta in Ha, Hf.
  split; [exact Ha |]. split; [exact Hf |]. split.
  - rewrite Ha. apply ids_NoDup.
  - rewrite Hf. apply ids_NoDup.
Qed.

(** *** Labels and statistics *)

Lemma select_labelled_app (rows more : list article_row) :
  select_labelled (rows ++ more) = select_labelled rows ++ select_labelled more.
Proof.
  induction rows as [|r rows IH]; [reflexivity |].
  cbn. destruct (user_interest r); cbn; now rewrite IH.
Qed.

Lemma select_labelled_length (rows : list article_row) :
  (List.length (select_labelled rows) <= List.length rows)%nat.
Proof.
  induction rows as [|r rows IH]; [cbn; lia |].
  cbn. destruct (user_interest r); cbn; lia.
Qed.

Lemma binary_labels_sum (rows : list article_row) :
  Forall binary_label rows ->
  0 <= sum_Z (map snd (select_labelled rows)) <=
  Py.len (map snd (select_labelled rows)).
Proof.
  unfold Py.len. induction 1 as [|r rows Hr _ IH]; [cbn; lia |].
  cbn [select_labelled]. destruct Hr as [Hr | [Hr | Hr]]; rewrite Hr;
    [exact IH | |]; cbn [map snd sum_Z fold_right List.length];
    fold (sum_Z (map snd (select_labelled rows))); lia.
Qed.

Lemma update_keeps_binary (v article_id : Z) (rows : list article_row) :
  v = 0 \/ v = 1 ->
  Forall binary_label rows ->
  Forall binary_label (update_user_interest v article_id rows).
Proof.
  intros Hv H. unfold update_user_interest. apply Forall_map.
  eapply Forall_impl; [| exact H]. intros r Hr.
  destruct (row_id r =? article_id); [| exact Hr].
  unfold binary_label. cbn. destruct Hv as [-> | ->]; auto.
Qed.

Lemma interest_of_binary (kind : string) (v : Z) :
  interest_of kind = Some v -> v = 0 \/ v = 1.
Proof.
  unfold interest_of. destruct (kind =? "interested")%string;
    [intros [= <-]; now right |].
  destruct (kind =? "not_interested")%string; [intros [= <-]; now left |].
  discriminate.
Qed.

(** X11.  In a database that started empty every label is absent, 0 or 1,
    and the statistics are consistent: the labelled articles and the
    articles of the last day are counted among all the articles, and the
    interest rate lies between 0 and 1. *)
Theorem statistics_are_bounded (now : Clock.t) (events : list event) :
  let s := execute sk (empty sk) events in
  let stats := get_statistics sk now s in
  Forall binary_label (articles s) /\
  total_articles stats = Py.len (articles s) /\
  0 <= articles_with_feedback stats <= total_articles stats /\
  0 <= articles_last_24h stats <= total_articles stats /\
  (0 <= user_interest_rate stats <= 1)%Q.
Proof.
  cbv zeta.
  assert (H : Forall binary_label (articles (execute sk (empty sk) events))).
  { apply (execute_db_invariant (fun s => Forall binary_label (articles s)));
      [| constructor].
    intros s [config a | now' article_id kind] H; cbn [step].
    - rewrite record_article_steps. cbn [snd with_logged with_articles articles].
      apply Forall_app. split; [exact H |]. constructor; [| constructor].
      now left.
    - rewrite feedback_articles.
      destruct (interest_of kind) as [v |] eqn:E; [| exact H].
      apply update_keeps_binary; [| exact H].
      now apply interest_of_binary with (kind := kind). }
  set (s := execute sk (empty sk) events) in *.
  split; [exact H |]. unfold get_statistics. cbn.
  split; [reflexivity |].
  pose proof (select_labelled_length (articles s)) as Hlen.
  pose proof (binary_labels_sum (articles s) H) as Hsum.
  split; [unfold Py.len; rewrite length_map; lia |].
  split; [apply filter_len_bounds |].
  destruct (map snd (select_labelled (articles s))) as [|v labels] eqn:E.
  - split; unfold Qle; cbn; lia.
  - apply (ratio_unit_interval _ (Py.len (v :: labels))).
    + exact Hsum.
    + unfold Py.len. cbn [List.length]. lia.
Qed.

Lemma in_update (v article_id : Z) (rows : list article_row) (row : article_row) :
  In row (update_user_interest v article_id rows) ->
  (row_id row = article_id /\ user_interest row = Some v) \/
  (row_id row <> article_id /\ In row rows).
Proof.
  unfold update_user_interest. intros Hin.
  apply in_map_iff in Hin as [r [Hr Hin]].
  destruct (Z.eqb_spec (row_id r) article_id) as [E | E]; subst row.
  - left. now split.
  - right. now split.
Qed.

(** X12.  Feedback of kind [interested] labels every article of the given
    identity 1, [not_interested] labels it 0, whatever label it had, and any
    other kind leaves the articles as they are.  No kind of feedback changes
    an article of another identity, or anything but the label. *)
Theorem feedback_sets_label (now : Clock.t) (article_id : Z) (self : t sk) :
  let after kind :=
    articles (snd (record_user_feedback sk now article_id kind self)) in
  (forall row,
     In row (after "interested"%string) -> row_id row = article_id ->
     user_interest row = Some 1) /\
  (forall row,
     In row (after "not_interested"%string) -> row_id row = article_id ->
     user_interest row = Some 0) /\
  (forall kind,
     kind <> "interested"%string -> kind <> "not_interested"%string ->
     after kind = articles self) /\
  (forall kind row,
     In row (after kind) -> row_id row <> article_id -> In row (articles self)) /\
  (forall kind, map unlabelled (after kind) = map unlabelled (articles self)).
Proof.
  cbv zeta. repeat split.
  - intros row Hin Hid. rewrite feedback_articles in Hin. cbn in Hin.
    apply in_update in Hin as [[_ H] | [H _]]; [exact H | contradiction].
  - intros row Hin Hid. rewrite feedback_articles in Hin. cbn in Hin.
    apply in_update in Hin as [[_ H] | [H _]]; [exact H | contradiction].
  - intros kind H1 H2. rewrite feedback_articles. unfold interest_of.
    apply String.eqb_neq in H1, H2. now rewrite H1, H2.
  - intros kind row Hin Hid. rewrite feedback_articles in Hin.
    destruct (interest_of kind); [| exact Hin].
    apply in_update in Hin as [[H _] | [_ H]]; [contradiction | exact H].
  - intros kind. rewrite feedback_articles.
    destruct (interest_of kind); [apply update_keeps_rest | reflexivity].
Qed.




(** *** Training and its traces *)

(** X14.  A training run that completes appends one row [model_accuracy]
    holding the held-out accuracy to the metrics table and writes the model
    file; a run that is refused or interrupted leaves both untouched. *)
Theorem training_records_accuracy (now : Clock.t) (self : t sk) :
  let after := snd (_train_model sk now self) in
  let fit :=
    fit_and_evaluate sk (training_texts sk self) (training_labels sk self) in
  (forall v c acc,
     50 <= labelled_count sk self -> fit = Ok (v, c, acc) ->
     performance_metrics after =
     performance_metrics self ++
     [MetricRow "model_accuracy" acc (Clock.now_isoformat now)] /\
     model_file after = Some (Clock.now_isoformat now)) /\
  (labelled_count sk self < 50 \/ (exists e, fit = Raise e) ->
   performance_metrics after = performance_metrics self /\
   model_file after = model_file self).
Proof.
  cbv zeta. unfold labelled_count, fit_and_evaluate, _train_model. run_db.
  change (map (fun row => Text.join_space (fst (fst row)) (snd (fst row)))
            (select_labelled (articles self)))
    with (training_texts sk self).
  fold (training_labels sk self).
  destruct (Z.ltb_spec (Py.len (select_labelled (articles self))) 50) as [H | H].
  { split; [intros; lia | intros _; now split]. }
  destruct (tfidf_fit_transform sk _) as [[v0 X] | e0]; cbn [bind fst snd].
  2:{ split; [discriminate | intros _; now split]. }
  destruct (train_test_split sk X _)
    as [[[X_train X_test] [y_train y_test]] | e1]; cbn [bind fst snd].
  2:{ split; [discriminate | intros _; now split]. }
  destruct (nb_fit sk X_train y_train) as [model | e2]; cbn [bind fst snd].
  2:{ split; [discriminate | intros _; now split]. }
  destruct (nb_predict sk model X_test) as [y_pred | e3]; cbn [bind fst snd].
  2:{ split; [discriminate | intros _; now split]. }
  destruct (accuracy_score sk y_test y_pred) as [accuracy | e4];
    cbn [bind fst snd].
  2:{ split; [discriminate | intros _; now split]. }
  split.
  - intros v c acc _ [= <- <- <-]. now split.
  - intros [Hlt | [e He]]; [lia | discriminate].
Qed.

(** *** Prediction *)

(** X15.  [predict_interest] never raises and changes nothing but the log.
    When the model is trained and the vectorizer and the classifier answer,
    the result is whether the predicted class is 1. *)
Theorem predict_interest_only_logs
    (config : Config.t) (a : article) (self : t sk) :
  exists b,
    fst (predict_interest sk config a self) = Ok b /\
    same_but_log sk self (snd (predict_interest sk config a self)) /\
    (forall v c X prediction predictions confidence row rows,
       model_trained self = true ->
       vectorizer self = Some (Fitted v) ->
       classifier self = Some (Fitted c) ->
       tfidf_transform sk v [(title a ++ " " ++ cleaned_content a)%string] = Ok X ->
       nb_predict sk c X = Ok (prediction :: predictions) ->
       nb_predict_proba sk c X = Ok ((confidence :: row) :: rows) ->
       b = (prediction =? 1)).
Proof.
  unfold predict_interest, same_but_log. run_db. unfold Text.join_space.
  destruct (model_trained self) eqn:Et; cbn [negb].
  2:{ eexists. split; [reflexivity |]. split; [now repeat split |].
      discriminate. }
  destruct (vectorizer self) as [[| v0] |] eqn:Ev; cbn [fitted];
    try (eexists; split; [reflexivity |]; split; [now repeat split |];
         intros; discriminate).
  destruct (tfidf_transform sk v0 _) as [X0 | e0] eqn:EX;
    try (eexists; split; [reflexivity |]; split; [now repeat split |];
         intros; congruence).
  destruct (classifier self) as [[| c0] |] eqn:Ec; cbn [fitted];
    try (eexists; split; [reflexivity |]; split; [now repeat split |];
         intros; discriminate).
  destruct (nb_predict sk c0 X0) as [[| p ps] | e1] eqn:Ep; cbn [index0];
    try (eexists; split; [reflexivity |]; split; [now repeat split |];
         intros; congruence).
  destruct (nb_predict_proba sk c0 X0) as [[| [| q qs] rs] | e2] eqn:Eq;
    cbn [index0 pymax];
    try (eexists; split; [reflexivity |]; split; [now repeat split |];
         intros; congruence).
Qed.

(** *** Construction *)

(** X16.  A database opened on a readable model file reports a trained
    model without running any training and without restoring a vectorizer
    or a classifier, so that every prediction logs an error and is the
    basic keyword prediction.  Opened without a model file and with fewer
    than 50 labelled articles, it stays untrained. *)
Theorem construction_loads_or_trains
    (disk_articles : list article_row) (disk_feedback : list feedback_row)
    (disk_metrics : list metric_row) (now : Clock.t) :
  (forall file config a,
     let db :=
       init sk disk_articles disk_feedback disk_metrics (Some file) (Ok tt)
         now in
     model_trained db = true /\
     vectorizer db = None /\ classifier db = None /\
     articles db = disk_articles /\ user_feedback db = disk_feedback /\
     performance_metrics db = disk_metrics /\
     logged db =
     [Log INFO "Database initialized successfully";
      Log INFO "Loaded existing learning model"] /\
     predict_interest sk config a db =
     (Ok (_basic_interest_prediction config a),
      with_logged sk (logged db ++ [Log ERROR "Error predicting interest"]) db)) /\
  (forall parsed,
     let db :=
       init sk disk_articles disk_feedback disk_metrics None parsed now in
     Py.len (select_labelled disk_articles) < 50 ->
     model_trained db = false /\
     vectorizer db = None /\ classifier db = None /\
     articles db = disk_articles /\
     logged db =
     [Log INFO "Database initialized successfully";
      Log INFO "Not enough data for training, using basic filtering"]).
Proof.
  split.
  - intros file config a. cbv zeta. repeat split.
  - intros parsed. cbv zeta. intros H.
    unfold init, _load_or_train_model, _load_model, _has_enough_training_data.
    run_db. cbn [model_file articles].
    destruct (Z.geb_spec (Py.len (select_labelled disk_articles)) 50); [lia |].
    cbn. now repeat split.
Qed.

(** *** Recording, then labelling *)

(** X17.  In a database that started empty, recording an article appends
    one unlabelled row with the next identity, the title and the cleaned
    content; feedback [interested] for that identity then labels this row
    and no other, so that the labelled articles are one more. *)
Theorem recorded_article_can_be_labelled
    (events : list event) (config : Config.t) (a : article) (now : Clock.t) :
  let s := execute sk (empty sk) events in
  let new_id := Z.of_nat (S (List.length (articles s))) in
  let s1 := step sk s (RecordArticle config a) in
  let s2 := step sk s1 (UserFeedback now new_id "interested") in
  exists row,
    articles s1 = articles s ++ [row] /\
    row_id row = new_id /\
    user_interest row = None /\
    row_title row = title a /\
    row_content row = cleaned_content a /\
    processed row = false /\
    articles s2 = articles s ++ [set_user_interest 1 row] /\
    labelled_count sk s1 = labelled_count sk s /\
    labelled_count sk s2 = labelled_count sk s + 1.
Proof.
  cbv zeta.
  destruct (executed_ids events) as [Hids _].
  cbv zeta in Hids.
  set (s := execute sk (empty sk) events) in *.
  cbn [step]. rewrite feedback_articles, record_article_steps.
  cbn [snd with_logged with_articles articles interest_of String.eqb].
  change (interest_of "interested") with (Some 1).
  rewrite Hids, next_id_ids.
  eexists. split; [reflexivity |]. cbn [row_id user_interest row_title
    row_content processed].
  do 5 (split; [reflexivity |]).
  assert (Hupd :
    update_user_interest 1 (Z.of_nat (S (List.length (articles s))))
      (articles s ++
       [ArticleRow (Z.of_nat (S (List.length (articles s)))) (title a)
          (cleaned_content a) (image_url a) (link a) (source_url a)
          (scraped_at a) (_calculate_relevance_score config a) None
          (_extract_keywords sk a) false]) =
    articles s ++
    [set_user_interest 1
       (ArticleRow (Z.of_nat (S (List.length (articles s)))) (title a)
          (cleaned_content a) (image_url a) (link a) (source_url a)
          (scraped_at a) (_calculate_relevance_score config a) None
          (_extract_keywords sk a) false)]).
  { unfold update_user_interest at 1. rewrite map_app.
    fold (update_user_interest 1 (Z.of_nat (S (List.length (articles s))))
            (articles s)).
    rewrite update_unknown.
    - cbn [map row_id]. now rewrite Z.eqb_refl.
    - intros row Hin Hid.
      assert (Hin' : In (row_id row) (ids (List.length (articles s)))).
      { rewrite <- Hids. now apply in_map. }
      unfold ids in Hin'. apply in_map_iff in Hin' as [n [Hn Hseq]].
      apply in_seq in Hseq. lia. }
  split; [exact Hupd |].
  split.
  - unfold labelled_count. rewrite ?record_article_steps.
    cbn [snd with_logged with_articles articles].
    rewrite select_labelled_app. unfold Py.len. rewrite length_app.
    cbn. lia.
  - unfold labelled_count at 1. rewrite feedback_articles.
    change (interest_of "interested") with (Some 1).
    rewrite ?record_article_steps.
    cbn [snd with_logged with_articles articles].
    rewrite ?Hids, ?next_id_ids, Hupd, select_labelled_app.
    unfold labelled_count, Py.len. rewrite length_app. cbn. lia.
Qed.

Lemma in_firstn {A : Type} (n : nat) (l : list A) (x : A) :
  In x (firstn n l) -> In x l.
Proof.
  revert l. induction n as [|n IH]; intros [|y l]; cbn; try tauto.
  intros [H | H]; [now left | right; now apply IH].
Qed.

(** X18.  The keywords stored with an article are the features of the
    count vectorizer when it answers; when it raises they are at most ten
    lower-cased words of the text, each longer than three characters and
    none of them a common word. *)
Theorem extract_keywords_fallback (a : article) :
  let text := (title a ++ " " ++ cleaned_content a)%string in
  (forall features,
     count_vectorizer_features sk text = Ok features ->
     _extract_keywords sk a = features) /\
  (forall e,
     count_vectorizer_features sk text = Raise e ->
     Py.len (_extract_keywords sk a) <= 10 /\
     forall word,
       In word (_extract_keywords sk a) ->
       3 < Text.len word /\
       ~ In word common_words /\
       In word (Text.split (Text.lower text))).
Proof.
  cbv zeta. unfold _extract_keywords, Text.join_space. split.
  - now intros features ->.
  - intros e ->. split.
    + unfold Py.len. pose proof (firstn_le_length 10
        (filter
           (fun word =>
              negb (existsb (String.eqb word) common_words) &&
              (Text.len word >? 3))
           (Text.split (Text.lower (title a ++ " " ++ cleaned_content a))))). lia.
    + intros word Hin. apply in_firstn in Hin.
      apply filter_In in Hin as [Hin Hf].
      apply andb_true_iff in Hf as [Hc Hl].
      split; [lia |]. split; [| exact Hin].
      intros Hcommon. apply negb_true_iff in Hc.
      assert (Ht : existsb (String.eqb word) common_words = true).
      { apply existsb_exists. exists word. split; [exact Hcommon |].
        apply String.eqb_refl. }
      congruence.
Qed.

End DatabaseMore.

(** ** The filter: priority, its own score and updates *)

Section RankingFacts.

Import TextSpec ContentRanking FilterOps.

Variable fromisoformat : string -> option parsed_datetime.






Lemma apply_updates_synced (updates : list update) : forall self,
  ContentFilter.keyword_patterns self =
  map Text.compile_word (ContentFilter.keywords self) ->
  ContentFilter.blacklist_patterns self =
  map Text.compile_word (ContentFilter.blacklist self) ->
  let f := apply_updates self updates in
  ContentFilter.keyword_patterns f =
  map Text.compile_word (ContentFilter.keywords f) /\
  ContentFilter.blacklist_patterns f =
  map Text.compile_word (ContentFilter.blacklist f) /\
  ContentFilter.min_content_length f = ContentFilter.min_content_length self /\
  ContentFilter.learning_enabled f = ContentFilter.learning_enabled self.
Proof.
  induction updates as [|u updates IH]; intros self Hk Hb; [now repeat split |].
  cbn [apply_updates fold_left]. fold (apply_updates (apply_update self u) updates).
  destruct (IH (apply_update self u)) as (H1 & H2 & H3 & H4).
  - destruct u; cbn; auto.
  - destruct u; cbn; auto.
  - cbv zeta in *. rewrite H3, H4. destruct u; now repeat split.
Qed.

(** X21.  However the keywords and the blacklist of a filter are updated,
    its compiled patterns are those of its current keywords and blacklist:
    the filter is the one [ContentFilter.__init__] builds from a
    configuration holding the current lists, and so accepts and rejects the
    same articles. *)
Theorem updates_keep_patterns (config : Config.t) (updates : list update) (a : article) :
  let f := apply_updates (ContentFilter.init config) updates in
  let current :=
    Config.Make (Config.scan_interval config) (ContentFilter.keywords f)
      (ContentFilter.blacklist f) (Config.min_content_length config)
      (Config.learning_enabled config) in
  ContentFilter.keyword_patterns f =
  map Text.compile_word (ContentFilter.keywords f) /\
  ContentFilter.blacklist_patterns f =
  map Text.compile_word (ContentFilter.blacklist f) /\
  f = ContentFilter.init current /\
  ContentFilter.is_relevant f a =
  ContentFilter.is_relevant (ContentFilter.init current) a.
Proof.
  cbv zeta.
  destruct (apply_updates_synced updates (ContentFilter.init config)
              eq_refl eq_refl) as (Hk & Hb & Hm & Hl).
  cbv zeta in Hk, Hb, Hm, Hl.
  set (f := apply_updates (ContentFilter.init config) updates) in *.
  assert (Heq : f =
                ContentFilter.init
                  (Config.Make (Config.scan_interval config)
                     (ContentFilter.keywords f) (ContentFilter.blacklist f)
                     (Config.min_content_length config)
                     (Config.learning_enabled config))).
  { unfold ContentFilter.init. cbn. rewrite <- Hk, <- Hb.
    cbn in Hm, Hl. rewrite <- Hm, <- Hl. now destruct f. }
  split; [exact Hk |]. split; [exact Hb |]. split; [exact Heq |].
  now rewrite <- Heq.
Qed.

End RankingFacts.

Section KeywordFacts.

Import TextSpec.

(** X22.  With no keyword configured the three users of the keyword list
    disagree: the relevance filter's keyword check passes every text, the
    fallback interest prediction rejects every article, and the record-time
    score gets no keyword part: it is 0.0, 0.2, 0.4 or the binary64 sum
    0.2 + 0.2 + 0.2, which is 0.6000000000000001. *)
Theorem no_keywords_configured
    (interval min_length : Z) (blacklist : list string) (learning : bool)
    (a : article) (text : string) :
  let config := Config.Make interval [] blacklist min_length learning in
  let score := LearningDatabase._calculate_relevance_score config a in
  ContentFilter._contains_keywords (ContentFilter.init config) text = true /\
  LearningDatabase._basic_interest_prediction config a = false /\
  (score = Binary64.zero \/ score = Binary64.fifth \/
   score = Binary64.two_fifths \/ score = Binary64.three_fifths_up) /\
  Binary64.plus (Binary64.plus Binary64.fifth Binary64.fifth) Binary64.fifth =
  Binary64.three_fifths_up.
Proof.
  cbv zeta. split; [reflexivity |]. split; [| split; [| reflexivity]].
  - unfold LearningDatabase._basic_interest_prediction. cbn [Config.keywords
      Config.blacklist existsb]. now destruct (existsb _ blacklist).
  - unfold LearningDatabase._calculate_relevance_score,
      LearningDatabase._calculate_relevance_score_body.
    cbn [Config.keywords bind].
    destruct ((20 <=? Text.len (title a)) && (Text.len (title a) <=? 100)),
      (Text.len (cleaned_content a) >? 200), (truthy (image_url a));
      vm_compute; tauto.
Qed.

End KeywordFacts.

(** ** The configuration tree *)

Section ConfigManagerFacts.

Import ConfigManager.

Lemma lookup_store_same (k : string) (v : json) (d : dict) :
  lookup k (store k v d) = Some v.
Proof.
  induction d as [|[k' v'] d IH]; cbn.
  - now rewrite String.eqb_refl.
  - destruct (String.eqb k' k) eqn:E; cbn; rewrite E; [reflexivity | exact IH].
Qed.

Lemma lookup_store_other (k k2 : string) (v : json) (d : dict) :
  k2 <> k -> lookup k2 (store k v d) = lookup k2 d.
Proof.
  intros Hne. induction d as [|[k' v'] d IH]; cbn.
  - destruct (String.eqb_spec k k2); [now subst | reflexivity].
  - destruct (String.eqb_spec k' k) as [-> | Hk]; cbn.
    + destruct (String.eqb_spec k k2); [now subst | reflexivity].
    + destruct (String.eqb k' k2); [reflexivity | exact IH].
Qed.

Lemma split_on_nonempty (sep : ascii) (s : string) : split_on sep s <> [].
Proof.
  destruct s as [|c s]; cbn; [discriminate |].
  destruct (Ascii.eqb c sep); [discriminate |].
  destruct (split_on sep s); discriminate.
Qed.

Lemma set_path_get_path (keys : list string) (final : string) (value : json) :
  forall config config' default,
    set_path keys final value config = Some config' ->
    get_path (keys ++ [final]) (JDict config') default = value.
Proof.
  induction keys as [|k keys IH]; intros config config' default H; cbn in *.
  - injection H as <-. now rewrite lookup_store_same.
  - destruct (lookup k config) as [[| | | | | | sub] |]; try discriminate.
    + destruct (set_path keys final value sub) as [sub' |] eqn:E;
        [| discriminate].
      injection H as <-. rewrite lookup_store_same. now apply IH with (config := sub).
    + destruct (set_path keys final value []) as [sub' |] eqn:E;
        [| discriminate].
      injection H as <-. rewrite lookup_store_same. now apply IH with (config := []).
Qed.

(** X23.  What [set] stores under a dotted key, [get] reads back under the
    same key, whatever the default; the file then holds the tree that is in
    memory. *)
Theorem get_after_set (self self' : t) (key : string) (value default : json) :
  set self key value = Some self' ->
  get self' key default = value /\
  config_file self' = Some (config self').
Proof.
  unfold set, get. intros H.
  destruct (set_path _ _ value (config self)) as [config' |] eqn:E;
    [| discriminate].
  injection H as <-. cbn [config config_file]. split; [| reflexivity].
  rewrite (app_removelast_last EmptyString (split_on_nonempty "." key)) at 1.
  now apply set_path_get_path with (config := config self).
Qed.






Lemma lookup_app (k : string) (a b : dict) :
  lookup k (a ++ b) =
  match lookup k a with Some v => Some v | None => lookup k b end.
Proof.
  induction a as [|[k' v'] a IH]; [reflexivity |].
  cbn. destruct (String.eqb k' k); [reflexivity | exact IH].
Qed.

Lemma lookup_merge (k : string) (loaded : dict) : forall defaults,
  lookup k (merge defaults loaded) =
  match lookup k (rev loaded) with
  | Some v => Some v
  | None => lookup k defaults
  end.
Proof.
  unfold merge. induction loaded as [|[k' v'] loaded IH]; intros defaults;
    [reflexivity |].
  cbn [fold_left fst snd rev]. rewrite IH, lookup_app. cbn [lookup].
  destruct (lookup k (rev loaded)); [reflexivity |].
  destruct (String.eqb_spec k' k) as [-> | Hne].
  - now rewrite lookup_store_same.
  - apply lookup_store_other. congruence.
Qed.

(** X26.  Loading overlays the defaults one level deep: a top-level key of
    the file replaces the default value whole (its last occurrence counts),
    a key the file does not have keeps its default; and a file that is
    missing, unreadable or not a dictionary gives the defaults. *)
Theorem load_overlays_top_level (loaded : dict) (key : string) :
  lookup key (config (init (Parsed (JDict loaded)))) =
  match lookup key (rev loaded) with
  | Some v => Some v
  | None => lookup key default_config
  end /\
  config (init NoFile) = default_config /\
  config (init Unreadable) = default_config /\
  (forall other,
     (forall entries, other <> JDict entries) ->
     config (init (Parsed other)) = default_config).
Proof.
  split; [apply lookup_merge |]. split; [reflexivity |]. split; [reflexivity |].
  intros other H. destruct other; try reflexivity. now contradiction (H entries).
Qed.

End ConfigManagerFacts.

(** ** Cleaned content *)

Section CleanFacts.

Import WebScraper CleanSpec.

Local Open Scope string_scope.

Lemma every_impl (p q : ascii -> bool) (s : string) :
  (forall c, p c = true -> q c = true) -> every p s = true -> every q s = true.
Proof.
  intros H. induction s as [|c s IH]; [reflexivity |].
  cbn. rewrite !andb_true_iff. intros [Hc Hs]. split; [now apply H | now apply IH].
Qed.

Lemma every_and (p q : ascii -> bool) (s : string) :
  every p s = true -> every q s = true ->
  every (fun c => p c && q c) s = true.
Proof.
  induction s as [|c s IH]; [reflexivity |].
  cbn. rewrite !andb_true_iff. intros [Hp Hs] [Hq Hs'].
  repeat split; auto.
Qed.

Lemma collapse_plain (s : string) : forall in_run,
  every plain_space (collapse_whitespace in_run s) = true.
Proof.
  induction s as [|c s IH]; intros in_run; [reflexivity |].
  cbn [collapse_whitespace]. destruct (Text.isspace c) eqn:E.
  - destruct in_run; [apply IH |]. cbn. apply IH.
  - cbn. unfold plain_space at 1. rewrite E. cbn. apply IH.
Qed.

Lemma collapse_length (s : string) : forall in_run,
  (String.length (collapse_whitespace in_run s) <= String.length s)%nat.
Proof.
  induction s as [|c s IH]; intros in_run; [cbn; lia |].
  cbn [collapse_whitespace]. destruct (Text.isspace c).
  - destruct in_run; cbn; [specialize (IH true) | specialize (IH true)]; lia.
  - cbn. specialize (IH false). lia.
Qed.

Lemma collapse_spaces_only (s : string) : forall in_run,
  every Text.isspace s = true ->
  every Text.isspace (collapse_whitespace in_run s) = true.
Proof.
  induction s as [|c s IH]; intros in_run; [reflexivity |].
  cbn. rewrite andb_true_iff. intros [Hc Hs]. rewrite Hc.
  destruct in_run; [now apply IH |]. cbn. now apply IH.
Qed.

Lemma remove_entities_every (p : ascii -> bool) (s : string) : forall skip,
  every p s = true -> every p (remove_entities skip s) = true.
Proof.
  induction s as [|c s IH]; intros skip; [reflexivity |].
  cbn. rewrite andb_true_iff. intros [Hc Hs].
  destruct skip; [| now apply IH].
  destruct (Ascii.eqb c "&").
  - destruct (entity_tail false s); [now apply IH |].
    cbn. rewrite Hc. now apply IH.
  - cbn. rewrite Hc. now apply IH.
Qed.

Lemma remove_entities_length (s : string) : forall skip,
  (String.length (remove_entities skip s) <= String.length s)%nat.
Proof.
  induction s as [|c s IH]; intros skip; [cbn; lia |].
  cbn [remove_entities]. destruct skip; [| specialize (IH skip); cbn; lia].
  destruct (Ascii.eqb c "&").
  - destruct (entity_tail false s) as [n |];
      [specialize (IH n) | specialize (IH 0%nat)]; cbn; lia.
  - specialize (IH 0%nat). cbn. lia.
Qed.

Lemma remove_special_kept (s : string) : every kept (remove_special s) = true.
Proof.
  induction s as [|c s IH]; [reflexivity |].
  cbn. destruct (kept c) eqn:E; [| exact IH]. cbn. now rewrite E.
Qed.

Lemma remove_special_every (p : ascii -> bool) (s : string) :
  every p s = true -> every p (remove_special s) = true.
Proof.
  induction s as [|c s IH]; [reflexivity |].
  cbn. rewrite andb_true_iff. intros [Hc Hs].
  destruct (kept c); [| now apply IH]. cbn. rewrite Hc. now apply IH.
Qed.

Lemma remove_special_length (s : string) :
  (String.length (remove_special s) <= String.length s)%nat.
Proof.
  induction s as [|c s IH]; [cbn; lia |].
  cbn. destruct (kept c); cbn; lia.
Qed.

Lemma lstrip_every (p : ascii -> bool) (s : string) :
  every p s = true -> every p (lstrip s) = true.
Proof.
  induction s as [|c s IH]; [reflexivity |].
  cbn [lstrip]. destruct (Text.isspace c); [| trivial].
  cbn. rewrite andb_true_iff. intros [_ Hs]. now apply IH.
Qed.

Lemma lstrip_length (s : string) :
  (String.length (lstrip s) <= String.length s)%nat.
Proof.
  induction s as [|c s IH]; [cbn; lia |].
  cbn [lstrip]. destruct (Text.isspace c); cbn in *; lia.
Qed.

Lemma lstrip_first (s : string) : space_at (Text.first (lstrip s)) = false.
Proof.
  induction s as [|c s IH]; [reflexivity |].
  cbn [lstrip]. destruct (Text.isspace c) eqn:E; [exact IH | exact E].
Qed.

Lemma lstrip_spaces_only (s : string) :
  every Text.isspace s = true -> lstrip s = "".
Proof.
  induction s as [|c s IH]; [reflexivity |].
  cbn. rewrite andb_true_iff. intros [Hc Hs]. rewrite Hc. now apply IH.
Qed.

Lemma rstrip_every (p : ascii -> bool) (s : string) :
  every p s = true -> every p (rstrip s) = true.
Proof.
  induction s as [|c s IH]; [reflexivity |].
  cbn. rewrite andb_true_iff. intros [Hc Hs]. specialize (IH Hs).
  destruct (rstrip s) as [|x rest].
  - destruct (Text.isspace c); [reflexivity |]. cbn. now rewrite Hc.
  - cbn in *. now rewrite Hc, IH.
Qed.

Lemma rstrip_length (s : string) :
  (String.length (rstrip s) <= String.length s)%nat.
Proof.
  induction s as [|c s IH]; [cbn; lia |].
  cbn. destruct (rstrip s) as [|x rest].
  - destruct (Text.isspace c); cbn; lia.
  - cbn in *. lia.
Qed.

Lemma rstrip_first (s : string) :
  space_at (Text.first s) = false -> space_at (Text.first (rstrip s)) = false.
Proof.
  destruct s as [|c s]; [reflexivity |].
  cbn. intros Hc. destruct (rstrip s); [now rewrite Hc | exact Hc].
Qed.

Lemma rstrip_last (s : string) : forall prev,
  space_at (TextSpec.last_or prev (rstrip s)) = false \/ rstrip s = "".
Proof.
  induction s as [|c s IH]; intros prev; [now right |].
  cbn. destruct (rstrip s) as [|x rest] eqn:E.
  - destruct (Text.isspace c) eqn:Ec; [now right |]. left. cbn. exact Ec.
  - left. destruct (IH (Some c)) as [H | H]; [exact H | discriminate].
Qed.

(** What cleaning leaves, in terms of the functions of the embedding. *)
Lemma clean_content_bounds (content : string) :
  let cleaned := clean_content content in
  every clean_char cleaned = true /\
  space_at (Text.first cleaned) = false /\
  space_at (TextSpec.last_or None cleaned) = false /\
  (String.length cleaned <= String.length content)%nat /\
  (every Text.isspace content = true -> cleaned = "").
Proof.
  cbv zeta. unfold clean_content, strip.
  set (s1 := collapse_whitespace false content).
  set (s2 := remove_entities 0 s1).
  set (s3 := remove_special s2).
  split; [| split; [| split; [| split]]].
  - apply every_impl with (p := fun c => kept c && plain_space c).
    + intros c. unfold kept, plain_space, clean_char.
      destruct (existsb (Ascii.eqb c) _), (Text.isword c), (Text.isspace c),
        (Ascii.eqb c " "); cbn; intros; try reflexivity; try discriminate.
    + apply every_and; apply rstrip_every, lstrip_every.
      * apply remove_special_kept.
      * apply remove_special_every, remove_entities_every, collapse_plain.
  - apply rstrip_first, lstrip_first.
  - destruct (rstrip_last (lstrip s3) None) as [H | ->]; [exact H | reflexivity].
  - pose proof (rstrip_length (lstrip s3)). pose proof (lstrip_length s3).
    pose proof (remove_special_length s2).
    pose proof (remove_entities_length s1 0).
    pose proof (collapse_length content false).
    unfold s3, s2, s1 in *. lia.
  - intros H. rewrite lstrip_spaces_only; [reflexivity |].
    apply remove_special_every, remove_entities_every.
    now apply collapse_spaces_only.
Qed.

(** *** Clean words come out as they are *)

Import Reading.

Lemma every_spec (P : ascii -> Prop) (p : ascii -> bool) (s : string) :
  (forall c, p c = true <-> P c) ->
  (CleanSpec.every p s = true <-> Reading.every P s).
Proof.
  intros Hp. induction s as [|c s IH]; cbn; [tauto |].
  now rewrite andb_true_iff, Hp, IH.
Qed.

Lemma reading_every_impl (P Q : ascii -> Prop) (s : string) :
  (forall c, P c -> Q c) -> Reading.every P s -> Reading.every Q s.
Proof.
  intros H. induction s as [|c s IH]; cbn; [tauto |].
  intros [Hc Hs]. split; [now apply H | now apply IH].
Qed.

Lemma reading_every_append (P : ascii -> Prop) (a b : string) :
  Reading.every P (a ++ b) <-> Reading.every P a /\ Reading.every P b.
Proof. induction a as [|c a IH]; cbn; [tauto | rewrite IH; tauto]. Qed.

Lemma kept_mark_spec (c : ascii) :
  existsb (Ascii.eqb c) ["."; ","; "!"; "?"; "-"; ":"; ";"]%char = true
  <-> kept_mark c.
Proof.
  unfold kept_mark. rewrite existsb_exists. split.
  - intros [x [Hin Hx]]. apply Ascii.eqb_eq in Hx. now subst x.
  - intros H. exists c. split; [exact H | apply Ascii.eqb_refl].
Qed.

Lemma clean_char_spec (c : ascii) :
  clean_char c = true <-> clean_letter c \/ c = " "%char.
Proof.
  unfold clean_char, clean_letter.
  rewrite !orb_true_iff, isword_spec, Ascii.eqb_eq, kept_mark_spec. tauto.
Qed.

(** A character of clean text is kept by every step of the cleaning. *)
Lemma clean_char_kept (c : ascii) :
  clean_letter c \/ c = " "%char ->
  kept c = true /\ Ascii.eqb c "&" = false.
Proof.
  intros H. apply clean_char_spec in H. revert H. unfold clean_char, kept.
  destruct c as [[] [] [] [] [] [] [] []]; vm_compute; auto.
Qed.

Lemma append_empty_r (s : string) : s ++ "" = s.
Proof. induction s as [|c s IH]; cbn; [reflexivity | now rewrite IH]. Qed.

Lemma collapse_word (w : string) :
  Reading.every (fun c => ~ whitespace c) w ->
  forall rest,
    collapse_whitespace false (w ++ rest) = w ++ collapse_whitespace false rest.
Proof.
  induction w as [|c w IH]; intros Hw rest; [reflexivity |].
  destruct Hw as [Hc Hw]. cbn.
  now rewrite (proj2 (not_isspace c) Hc), (IH Hw).
Qed.

Lemma collapse_solid (w : string) (in_run : bool) (rest : string) :
  solid w ->
  collapse_whitespace in_run (w ++ rest) = w ++ collapse_whitespace false rest.
Proof.
  intros [Hne Hw]. destruct w as [|c w]; [now contradiction Hne |].
  destruct Hw as [Hc Hw]. cbn.
  now rewrite (proj2 (not_isspace c) Hc), (collapse_word w Hw).
Qed.

Lemma collapse_lead (s : string) :
  collapse_whitespace false s = collapse_whitespace true s \/
  collapse_whitespace false s = String " " (collapse_whitespace true s).
Proof.
  destruct s as [|c s]; [now left |]. cbn.
  destruct (Text.isspace c); [now right | now left].
Qed.

(** Collapsing the whitespace of a text leaves its words with one space
    between them, and at most one space after them. *)
Lemma collapse_words (s : string) (ws : list string) :
  words_of s ws ->
  collapse_whitespace true s = joined ws \/
  (ws <> [] /\ collapse_whitespace true s = joined ws ++ " ").
Proof.
  induction 1 as [|c s ws Hc _ IH|w rest ws Hw Hrest Hws IH].
  - now left.
  - cbn. now rewrite (proj2 (isspace_spec c) Hc).
  - rewrite (collapse_solid w true rest Hw).
    destruct Hrest as [-> | (c & r & -> & Hc)].
    + apply words_of_split in Hws. cbn in Hws. subst ws. left. cbn.
      apply append_empty_r.
    + cbn [collapse_whitespace] in IH |- *.
      rewrite (proj2 (isspace_spec c) Hc) in IH |- *.
      destruct ws as [|w2 ws].
      * right. split; [discriminate |].
        destruct IH as [IH | [Hne _]]; [| now contradiction Hne].
        rewrite IH. reflexivity.
      * change (joined (w :: w2 :: ws)) with (w ++ " " ++ joined (w2 :: ws)).
        destruct IH as [IH | [_ IH]]; rewrite IH.
        -- now left.
        -- right. split; [discriminate |]. now rewrite !append_assoc.
Qed.

Lemma words_of_solid (s : string) (ws : list string) :
  words_of s ws -> forall w, In w ws -> solid w.
Proof.
  induction 1 as [|c s ws Hc _ IH|w rest ws Hw Hrest _ IH]; intros x Hx.
  - contradiction.
  - now apply IH.
  - destruct Hx as [<- | Hx]; [exact Hw | now apply IH].
Qed.

Lemma joined_clean (ws : list string) :
  (forall w, In w ws -> Reading.every clean_letter w) ->
  Reading.every (fun c => clean_letter c \/ c = " "%char) (joined ws).
Proof.
  induction ws as [|w ws IH]; intros H; [exact I |].
  assert (Hw : Reading.every (fun c => clean_letter c \/ c = " "%char) w).
  { apply reading_every_impl with (P := clean_letter); [tauto |].
    apply H. now left. }
  destruct ws as [|w2 ws]; [exact Hw |].
  change (joined (w :: w2 :: ws)) with (w ++ " " ++ joined (w2 :: ws)).
  apply reading_every_append. split; [exact Hw |].
  split; [now right |]. apply IH. intros x Hx. apply H. now right.
Qed.

Lemma remove_entities_plain (s : string) :
  Reading.every (fun c => Ascii.eqb c "&" = false) s ->
  remove_entities 0 s = s.
Proof.
  induction s as [|c s IH]; [reflexivity |]. intros [Hc Hs].
  cbn. now rewrite Hc, (IH Hs).
Qed.

Lemma remove_special_plain (s : string) :
  Reading.every (fun c => kept c = true) s -> remove_special s = s.
Proof.
  induction s as [|c s IH]; [reflexivity |]. intros [Hc Hs].
  cbn. now rewrite Hc, (IH Hs).
Qed.

Lemma rstrip_space (s : string) : rstrip (s ++ " ") = rstrip s.
Proof. induction s as [|c s IH]; [reflexivity |]. cbn. now rewrite IH. Qed.

Lemma rstrip_word (w : string) :
  Reading.every (fun c => ~ whitespace c) w -> rstrip w = w.
Proof.
  induction w as [|c w IH]; [reflexivity |]. intros [Hc Hw].
  cbn. rewrite (IH Hw). destruct w; [| reflexivity].
  now rewrite (proj2 (not_isspace c) Hc).
Qed.

Lemma rstrip_before_word (a w : string) :
  solid w -> rstrip (a ++ w) = a ++ w.
Proof.
  intros [Hne Hw]. induction a as [|x a IH]; [now apply rstrip_word |].
  cbn. rewrite IH. destruct (a ++ w) eqn:E; [| reflexivity].
  destruct a; [now contradiction Hne | discriminate].
Qed.

(** Words joined by spaces begin with a character of the first word and
    end with the last word. *)
Lemma joined_shape (ws : list string) :
  (forall w, In w ws -> solid w) -> ws <> [] ->
  (exists c r, joined ws = String c r /\ Text.isspace c = false) /\
  (exists a w, joined ws = a ++ w /\ solid w).
Proof.
  induction ws as [|w ws IH]; intros H Hne; [now contradiction Hne |].
  assert (Hw : solid w) by (apply H; now left).
  assert (Hhead : forall rest,
            exists c r, w ++ rest = String c r /\ Text.isspace c = false).
  { intros rest. destruct Hw as [Hn Hw].
    destruct w as [|c r]; [now contradiction Hn |].
    exists c, (r ++ rest). split; [reflexivity |].
    apply not_isspace. exact (proj1 Hw). }
  destruct ws as [|w2 ws].
  - split.
    + destruct (Hhead "") as (c & r & E & Hc). rewrite append_empty_r in E.
      now exists c, r.
    + now exists "", w.
  - change (joined (w :: w2 :: ws)) with (w ++ " " ++ joined (w2 :: ws)).
    split; [apply Hhead |].
    destruct IH as [_ (a & w' & E & Hw')];
      [intros x Hx; apply H; now right | discriminate |].
    exists (w ++ " " ++ a), w'. split; [| exact Hw'].
    now rewrite E, !append_assoc.
Qed.

Lemma strip_joined (ws : list string) :
  (forall w, In w ws -> solid w) ->
  strip (joined ws) = joined ws /\
  strip (String " " (joined ws)) = joined ws /\
  (ws <> [] ->
   strip (joined ws ++ " ") = joined ws /\
   strip (String " " (joined ws ++ " ")) = joined ws).
Proof.
  intros H. destruct ws as [|w0 ws0] eqn:E.
  - repeat split; intros Hne; now contradiction Hne.
  - rewrite <- E in *.
    destruct (joined_shape ws H ltac:(subst ws; discriminate))
      as [(c & r & Ej & Hc) (a & w & Ea & Hw)].
    assert (Hr : rstrip (joined ws) = joined ws)
      by (rewrite Ea; now apply rstrip_before_word).
    assert (Hl : lstrip (joined ws) = joined ws)
      by (rewrite Ej; cbn; now rewrite Hc).
    assert (Hl' : lstrip (joined ws ++ " ") = joined ws ++ " ")
      by (rewrite Ej; cbn; now rewrite Hc).
    unfold strip. cbn [lstrip]. change (Text.isspace " ") with true.
    cbn iota. rewrite Hl, Hl', rstrip_space, Hr. now repeat split.
Qed.

(** X27.  Cleaned content holds nothing but word characters, plain spaces
    and the punctuation [. , ! ? - : ;].  It neither starts nor ends with
    whitespace, is never longer than the content, and is empty when the
    content is nothing but whitespace.  A content made of words of such
    characters, with any whitespace before, between and after them, comes
    out as these words with one space between two neighbours. *)
Theorem clean_content_is_clean (content : string) :
  let cleaned := clean_content content in
  Reading.every (fun c => clean_letter c \/ c = " "%char) cleaned /\
  (forall c, Reading.head cleaned = Some c -> ~ whitespace c) /\
  (forall c, Reading.final cleaned = Some c -> ~ whitespace c) /\
  (String.length cleaned <= String.length content)%nat /\
  (Reading.every whitespace content -> cleaned = "") /\
  (forall ws,
     words_of content ws ->
     (forall w, In w ws -> Reading.every clean_letter w) ->
     cleaned = joined ws).
Proof.
  cbv zeta.
  destruct (clean_content_bounds content) as (H1 & H2 & H3 & H4 & H5).
  cbv zeta in H1, H2, H3, H4, H5.
  split; [now apply (every_spec _ _ _ clean_char_spec) |].
  split.
  { intros c Hc. rewrite head_spec, Hc in H2. now apply not_isspace. }
  split.
  { intros c Hc. rewrite final_spec, Hc in H3. now apply not_isspace. }
  split; [exact H4 |].
  split.
  { intros H. apply H5. now apply (every_spec _ _ _ isspace_spec). }
  intros ws Hws Hclean. unfold clean_content.
  pose proof (words_of_solid _ _ Hws) as Hsolid.
  pose proof (joined_clean ws Hclean) as Hj.
  destruct (strip_joined ws Hsolid) as (S1 & S2 & S3).
  assert (Hplain : forall x,
            Reading.every (fun c => clean_letter c \/ c = " "%char) x ->
            strip (remove_special (remove_entities 0 x)) = strip x).
  { intros x Hx.
    rewrite remove_entities_plain, remove_special_plain; [reflexivity | |];
      apply reading_every_impl with (2 := Hx); intros c Hc;
      now apply clean_char_kept. }
  assert (Hspace : Reading.every (fun c => clean_letter c \/ c = " "%char) " ")
    by (split; [now right | exact I]).
  destruct (collapse_lead content) as [-> | ->];
    destruct (collapse_words content ws Hws) as [-> | [Hne ->]];
    rewrite Hplain.
  - exact S1.
  - exact Hj.
  - now apply S3.
  - apply reading_every_append. now split.
  - exact S2.
  - split; [now right | exact Hj].
  - now apply S3.
  - split; [now right |]. apply reading_every_append. now split.
Qed.

End CleanFacts.

Section MoreSamples.

Local Open Scope string_scope.

Example clean_content_samples :
  WebScraper.clean_content
    ("  Hello," ++ CleanSpec.newline ++ CleanSpec.tab ++ " world &amp; <b>all</b>!  ")
  = "Hello, world  ballb!" /\
  WebScraper.clean_content "a &am&x;p; b" = "a amp; b" /\
  WebScraper.clean_content "x &; y &#38; z" = "x ; y  z" /\
  WebScraper.clean_content "R&D; done &amp;&lt;" = "R done" /\
  WebScraper.clean_content "&a;b;" = "b;".
Proof. repeat split. Qed.

Example clean_words_sample :
  Reading.words_of ("  Caf" ++ String (ascii_of_N 233) "," ++ CleanSpec.tab ++ "ok ")
    ["Caf" ++ String (ascii_of_N 233) ","; "ok"] /\
  WebScraper.clean_content
    ("  Caf" ++ String (ascii_of_N 233) "," ++ CleanSpec.tab ++ "ok ")
  = "Caf" ++ String (ascii_of_N 233) ", ok".
Proof. split; [now apply words_of_spec | reflexivity]. Qed.

Example split_on_samples :
  ConfigManager.split_on "." "a.b" = ["a"; "b"] /\
  ConfigManager.split_on "." "" = [""] /\
  ConfigManager.split_on "." "a..b." = ["a"; ""; "b"; ""].
Proof. repeat split. Qed.

Example config_samples :
  let defaults := ConfigManager.init ConfigManager.NoFile in
  ConfigManager.get defaults "content_filter.min_content_length"
    ConfigManager.JNull = ConfigManager.JInt 100 /\
  ConfigManager.get defaults "scan_interval.seconds" (ConfigManager.JInt 7)
  = ConfigManager.JInt 7 /\
  ConfigManager.set defaults "scan_interval.seconds" (ConfigManager.JInt 7)
  = None /\
  ConfigManager.get
    (ConfigManager.init
       (ConfigManager.Parsed
          (ConfigManager.JDict
             [("content_filter",
               ConfigManager.JDict
                 [("keywords", ConfigManager.JList [ConfigManager.JStr "art"])])])))
    "content_filter.min_content_length" (ConfigManager.JInt 100)
  = ConfigManager.JInt 100.
Proof. repeat split. Qed.

End MoreSamples.

(** ** The interest test of the scraper *)

Section InterestFacts.

Import LearningDatabase.

Variable sk : sklearn.
Variable fromisoformat : string -> option ContentRanking.parsed_datetime.

Lemma predict_interest_returns
    (config : Config.t) (a : article) (self : t sk) :
  exists b, fst (predict_interest sk config a self) = Ok b.
Proof.
  unfold predict_interest, try_except, mbind, get, lift, log, ret, modify.
  cbn beta iota.
  destruct (model_trained self); cbn [negb]; [| now eexists].
  destruct (fitted (vectorizer self)) as [v | e]; [| now eexists].
  destruct (tfidf_transform sk v _) as [X | e]; [| now eexists].
  destruct (fitted (classifier self)) as [c | e]; [| now eexists].
  destruct (nb_predict sk c X) as [predictions | e]; [| now eexists].
  destruct (index0 predictions) as [prediction | e]; [| now eexists].
  destruct (nb_predict_proba sk c X) as [probabilities | e]; [| now eexists].
  destruct (index0 probabilities) as [probability | e]; [| now eexists].
  destruct (pymax probability) as [confidence | e]; now eexists.
Qed.

(** X28.  The interest test of the scraper is the prediction of the
    learning database and nothing else: the prediction handles its own
    failures, so the handler that would ask the filter for the priority of
    the article is never entered. *)
Theorem interest_never_falls_back
    (config : Config.t) (now : Clock.t) (a : article) (self : t sk) :
  Interest.is_interesting sk fromisoformat config now a self =
  predict_interest sk config a self.
Proof.
  unfold Interest.is_interesting. unfold try_except at 1.
  destruct (predict_interest_returns config a self) as [b Hb].
  destruct (predict_interest sk config a self) as [r s'].
  cbn [fst] in Hb. now subst r.
Qed.

End InterestFacts.

(** ** Letter case and short content *)

Section CaseFacts.

Import Text TextSpec.



Lemma split_from_bound (s : string) : forall cur,
  (2 * List.length (split_from cur s) <=
   String.length s + match cur with [] => 1 | _ :: _ => 2 end)%nat.
Proof.
  induction s as [|c s IH]; intros cur.
  - destruct cur; cbn; lia.
  - cbn [split_from String.length]. destruct (isspace c).
    + specialize (IH []). cbn iota in IH.
      destruct cur; cbn [flush List.length]; lia.
    + specialize (IH (c :: cur)). cbn iota in IH. destruct cur; lia.
Qed.

Lemma short_content_is_low_quality (content : string) :
  len content < 39 ->
  ContentFilter._is_low_quality_content content = Ok true.
Proof.
  intros H. unfold ContentFilter._is_low_quality_content.
  pose proof (split_from_bound (lower content) []) as Hb.
  rewrite lower_length in Hb. unfold split, Py.len, len in *.
  destruct (Z.ltb_spec
              (Z.of_nat (List.length (split_from [] (lower content)))) 20);
    [reflexivity | lia].
Qed.

(** X30.  Twenty words need at least 39 characters, so no filter, whatever
    its keywords, blacklist and minimum length, accepts an article whose
    content has fewer than 39 characters. *)
Theorem short_content_is_rejected (self : ContentFilter.t) (a : article) :
  len (content a) < 39 ->
  ContentFilter.is_relevant self a = false.
Proof.
  intros H. unfold ContentFilter.is_relevant, ContentFilter.is_relevant_body.
  destruct (_ <? ContentFilter.min_content_length self); [reflexivity |].
  destruct (ContentFilter._contains_blacklisted_terms self _); [reflexivity |].
  destruct (ContentFilter._contains_keywords self _); [| reflexivity].
  cbn [negb]. unfold ContentFilter._additional_relevance_checks.
  destruct (_ || _); [reflexivity |].
  now rewrite (short_content_is_low_quality _ H).
Qed.

End CaseFacts.

(** ** The theorems with a precondition, at concrete inputs *)

Section Witnesses.

Import LearningDatabase TrainSpec.


Lemma get_after_set_witness :
  exists self',
    ConfigManager.set (ConfigManager.init ConfigManager.NoFile)
      "content_filter.min_content_length" (ConfigManager.JInt 250) = Some self' /\
    ConfigManager.get self' "content_filter.min_content_length"
      ConfigManager.JNull = ConfigManager.JInt 250.
Proof.
  eexists. split; [reflexivity |].
  refine (proj1
    (get_after_set (ConfigManager.init ConfigManager.NoFile) _
       "content_filter.min_content_length" (ConfigManager.JInt 250)
       ConfigManager.JNull _)).
  reflexivity.
Defined.


Lemma short_content_is_rejected_witness :
  Text.len (content (Article "Breaking News Today" "short" "" None "" "" "")) < 39 /\
  ContentFilter.is_relevant (ContentFilter.init Config.default)
    (Article "Breaking News Today" "short" "" None "" "" "") = false.
Proof.
  assert (H : Text.len
                (content (Article "Breaking News Today" "short" "" None "" "" ""))
              < 39) by reflexivity.
  split; [exact H |].
  exact (short_content_is_rejected (ContentFilter.init Config.default)
           (Article "Breaking News Today" "short" "" None "" "" "") H).
Defined.

End Witnesses.

